(** * Cobbler install-server client ([server/hosts/install_server.py])

    A shallow embedding of [CobblerInterface] and of the world it talks to
    (the XML-RPC server, the host object, the clock, the local file system
    and the logger), followed by the properties of [install_host],
    [power_host] and [get_system_handle].

    Time is kept in exact rationals (seconds); every call to the outside
    world is recorded, with the time at which it started, in a trace. *)

From Stdlib Require Import QArith Qround Lqa ZArith Lia String List.
From stdpp Require Import gmap strings.
Import ListNotations.

Local Open Scope string_scope.
Local Open Scope list_scope.

(** ** Python values *)

(** The values that travel through the client: [None], booleans, numbers
    and strings. *)
Inductive pyval : Type :=
| PNone
| PBool (b : bool)
| PInt (n : Z)
| PFloat (q : Q)
| PStr (s : string).

(** Python truth value: [None], [False], zero and the empty string are
    false. *)
Definition truthy (v : pyval) : bool :=
  match v with
  | PNone => false
  | PBool b => b
  | PInt n => negb (n =? 0)%Z
  | PFloat q => negb (Qeq_bool q 0)
  | PStr s => negb (String.eqb s "")
  end.

Definition is_none (v : pyval) : bool :=
  match v with PNone => true | _ => false end.

(** Numbers (booleans included) compare by value. *)
Definition num_of (v : pyval) : option Q :=
  match v with
  | PBool b => Some (if b then 1 else 0)%Q
  | PInt n => Some (inject_Z n)
  | PFloat q => Some q
  | _ => None
  end.

(** Python [==]. *)
Definition py_eqb (a b : pyval) : bool :=
  match num_of a, num_of b with
  | Some x, Some y => Qeq_bool x y
  | None, None =>
      match a, b with
      | PNone, PNone => true
      | PStr s, PStr t => String.eqb s t
      | _, _ => false
      end
  | _, _ => false
  end.

(** [x < y] on numbers. *)
Definition Qlt_bool (x y : Q) : bool := negb (Qle_bool y x).

(** [d.get(key)]: the value, or [None] when the key is absent. *)
Definition dict_get (d : gmap string pyval) (key : string) : pyval :=
  default PNone (d !! key).

(** [needle in hay] on strings. *)
Fixpoint contains (needle hay : string) : bool :=
  String.prefix needle hay ||
  match hay with
  | EmptyString => false
  | String _ rest => contains needle rest
  end.

(** ** Exceptions *)

Inductive Exn : Type :=
| IndexError (detail : string)
| ValueError (msg : string)
| AttributeError (msg : string)
| HostInstallTimeoutError (msg : string)
| Fault (faultCode : Z) (faultString : string)
| OtherError (cls msg : string).

Definition is_fault (e : Exn) : bool :=
  match e with Fault _ _ => true | _ => false end.

Definition is_index_error (e : Exn) : bool :=
  match e with IndexError _ => true | _ => false end.

(** ** The outside world *)

(** Remote procedures of the install server. *)
Inductive RpcCall : Type :=
| rpc_login (user password : string)
| rpc_find_system (criteria : gmap string pyval)
| rpc_get_system_handle (system token : string)
| rpc_get_system (system : string)
| rpc_modify_system (handle field : string) (value : pyval) (token : string)
| rpc_sync_dhcp (token : string)
| rpc_save_system (handle token : string)
| rpc_power_system (handle state token : string).

Inductive LogLevel : Type := DEBUG | INFO | ERROR.

(** Everything the client does to the world. *)
Inductive Event : Type :=
| Rpc (c : RpcCall)
| Sleep (secs : Q)
| TimeTime
| HostRecord (status : string) (operation : pyval) (subcommand message : string)
| WaitForRestart
| Log (level : LogLevel) (fmt : string) (args : list pyval)
| OsPathIsfile (path : string)
| OsRemove (path : string).

(** A history lists the events so far, oldest first, each with the clock
    value at which it started. *)
Definition History : Type := list (Q * Event).

Inductive Reply (A : Type) : Type :=
| Ok (a : A)
| Err (e : Exn).
Arguments Ok {A} a.
Arguments Err {A} e.

(** The environment answers every call, as a function of the history. *)
Record Env : Type := {
  env_login : History -> string -> string -> Reply string;
  env_find_system : History -> gmap string pyval -> Reply (list string);
  env_get_system_handle : History -> string -> string -> Reply string;
  env_get_system : History -> string -> Reply (gmap string pyval);
  env_ack : History -> RpcCall -> Reply unit;
  env_wait_for_restart : History -> Reply unit;
  env_home : option string;
  env_isfile : History -> string -> bool;
  env_remove : History -> string -> Reply unit;
  env_latency : History -> Event -> Q
}.

Record World : Type := {
  trace : History;
  now : Q
}.

(** The events of a history, without their time stamps. *)
Definition events (h : History) : list Event := map snd h.

(** ** The monad of the client: state, exceptions and fuel *)

Inductive Outcome (A : Type) : Type :=
| Ret (a : A)
| Raise (e : Exn)
| OutOfFuel.
Arguments Ret {A} a.
Arguments Raise {A} e.
Arguments OutOfFuel {A}.

Definition Py (A : Type) : Type := World -> Outcome A * World.

Definition ret {A} (a : A) : Py A := fun w => (Ret a, w).

Definition raise {A} (e : Exn) : Py A := fun w => (Raise e, w).

Definition bind {A B} (m : Py A) (k : A -> Py B) : Py B :=
  fun w =>
    match m w with
    | (Ret a, w') => k a w'
    | (Raise e, w') => (Raise e, w')
    | (OutOfFuel, w') => (OutOfFuel, w')
    end.

(** [try: m except <handles>: handler]. *)
Definition try_except {A} (m : Py A) (handles : Exn -> bool)
    (handler : Exn -> Py A) : Py A :=
  fun w =>
    match m w with
    | (Raise e, w') => if handles e then handler e w' else (Raise e, w')
    | r => r
    end.

Declare Scope py_scope.
Delimit Scope py_scope with py.
Notation "x <- m ;; k" := (bind m (fun x => k))
  (at level 100, m at next level, right associativity) : py_scope.
Notation "m ;; k" := (bind m (fun _ => k))
  (at level 100, right associativity) : py_scope.
Local Open Scope py_scope.


Section Client.

Variable env : Env.

(** How long an event takes: its latency, plus the requested duration
    for a sleep. *)
Definition duration (h : History) (e : Event) : Q :=
  match e with
  | Sleep secs => (secs + env_latency env h e)%Q
  | _ => env_latency env h e
  end.

Definition advance (e : Event) (w : World) : World :=
  {| trace := trace w ++ [(now w, e)];
     now := (now w + duration (trace w) e)%Q |}.

(** Perform [e]; the environment's reply is read off the history before
    the call. *)
Definition ask {A} (e : Event) (oracle : History -> Reply A) : Py A :=
  fun w =>
    match oracle (trace w) with
    | Ok a => (Ret a, advance e w)
    | Err x => (Raise x, advance e w)
    end.

Definition perform (e : Event) : Py unit :=
  ask e (fun _ => Ok tt).

(** [time.time()] *)
Definition time_time : Py Q :=
  fun w => (Ret (now w), advance TimeTime w).

(** [time.sleep(secs)] *)
Definition time_sleep (secs : Q) : Py unit := perform (Sleep secs).

Definition logging_debug fmt args : Py unit := perform (Log DEBUG fmt args).
Definition logging_info fmt args : Py unit := perform (Log INFO fmt args).
Definition logging_error fmt args : Py unit := perform (Log ERROR fmt args).

(** *** The server proxy *)

Definition server_login u p : Py string :=
  ask (Rpc (rpc_login u p)) (fun h => env_login env h u p).
Definition server_find_system q : Py (list string) :=
  ask (Rpc (rpc_find_system q)) (fun h => env_find_system env h q).
Definition server_get_system_handle s t : Py string :=
  ask (Rpc (rpc_get_system_handle s t))
      (fun h => env_get_system_handle env h s t).
Definition server_get_system s : Py (gmap string pyval) :=
  ask (Rpc (rpc_get_system s)) (fun h => env_get_system env h s).
Definition server_ack (c : RpcCall) : Py unit :=
  ask (Rpc c) (fun h => env_ack env h c).
Definition server_modify_system hd f v t : Py unit :=
  server_ack (rpc_modify_system hd f v t).
Definition server_sync_dhcp t : Py unit := server_ack (rpc_sync_dhcp t).
Definition server_save_system hd t : Py unit :=
  server_ack (rpc_save_system hd t).
Definition server_power_system hd st t : Py unit :=
  server_ack (rpc_power_system hd st t).

(** *** The host object *)

Record Host : Type := { hostname : string }.

Definition host_record (status : string) (operation : pyval)
    (subcommand message : string) : Py unit :=
  perform (HostRecord status operation subcommand message).

Definition host_wait_for_restart : Py unit :=
  ask WaitForRestart (env_wait_for_restart env).

(** *** [remove_hosts_file] *)

Definition known_hosts_path : string :=
  (match env_home env with Some home => home | None => "None" end)
    +:+ "/.ssh/known_hosts".

Definition remove_hosts_file : Py unit :=
  let known_hosts_file := known_hosts_path in
  isfile <- ask (OsPathIsfile known_hosts_file)
                (fun h => Ok (env_isfile env h known_hosts_file)) ;;
  if (isfile : bool) then
    logging_debug "Deleting known hosts file %s" [PStr known_hosts_file] ;;
    ask (OsRemove known_hosts_file)
        (fun h => env_remove env h known_hosts_file)
  else ret tt.

(** *** [CobblerInterface] *)

Record Kwargs : Type := {
  kw_xmlrpc_url : pyval;
  kw_user : string;
  kw_password : string;
  kw_fallback_profile : pyval
}.

(** The attributes [server] and [token] are set together, and only for a
    non-empty [xmlrpc_url]: [token = None] stands for both being
    absent. *)
Record CobblerInterface : Type := {
  xmlrpc_url : pyval;
  user : string;
  password : string;
  fallback_profile : pyval;
  token : option string
}.

Definition __init__ (kwargs : Kwargs) : Py CobblerInterface :=
  let self := {| xmlrpc_url := kw_xmlrpc_url kwargs;
                 user := kw_user kwargs;
                 password := kw_password kwargs;
                 fallback_profile := kw_fallback_profile kwargs;
                 token := None |} in
  if truthy (xmlrpc_url self) then
    tok <- server_login (user self) (password self) ;;
    ret {| xmlrpc_url := xmlrpc_url self;
           user := user self;
           password := password self;
           fallback_profile := fallback_profile self;
           token := Some tok |}
  else ret self.

(** Reading [self.server] or [self.token]. *)
Definition self_attr (self : CobblerInterface) (name : string) : Py string :=
  match token self with
  | Some tok => ret tok
  | None =>
      raise (AttributeError
               ("'CobblerInterface' object has no attribute '" +:+ name +:+ "'"))
  end.

Definition get_system_handle (self : CobblerInterface) (host : Host)
    : Py (string * string) :=
  system <-
    try_except
      (self_attr self "server" ;;
       found <- server_find_system {[ "name" := PStr (hostname host) ]} ;;
       match found with
       | s :: _ => ret s
       | [] => raise (IndexError "list index out of range")
       end)
      is_index_error
      (fun detail =>
         logging_error "Error finding %s: %s"
           [PStr (hostname host);
            PStr (match detail with IndexError d => d | _ => "" end)] ;;
         raise (ValueError ("No system " +:+ hostname host
                              +:+ " registered on install server"))) ;;
  self_attr self "server" ;;
  tok <- self_attr self "token" ;;
  system_handle <- server_get_system_handle system tok ;;
  ret (system, system_handle).

Definition step_time : Q := 60.

(** Local variables of the polling loop. *)
Record PollState : Type := {
  install_successful : bool;
  time_elapsed : Q
}.

(** [while time_elapsed < timeout: ...]; one unit of fuel per evaluation
    of the loop test. *)
Fixpoint poll_loop (fuel : nat) (self : CobblerInterface) (system : string)
    (install_start timeout : Q) (st : PollState) : Py PollState :=
  match fuel with
  | O => fun w => (OutOfFuel, w)
  | S fuel' =>
      if Qlt_bool (time_elapsed st) timeout then
        time_sleep step_time ;;
        self_attr self "server" ;;
        system_info <- server_get_system system ;;
        let ok := negb (truthy (dict_get system_info "netboot_enabled")) in
        if ok then
          ret {| install_successful := ok; time_elapsed := time_elapsed st |}
        else
          t <- time_time ;;
          poll_loop fuel' self system install_start timeout
            {| install_successful := ok;
               time_elapsed := (t - install_start)%Q |}
      else ret st
  end.

(** The [try] statement around [sync_dhcp]. *)
Definition sync_dhcp_block (self : CobblerInterface) : Py unit :=
  try_except
    (self_attr self "server" ;;
     tok <- self_attr self "token" ;;
     server_sync_dhcp tok)
    is_fault
    (fun err =>
       match err with
       | Fault faultCode faultString =>
           if negb (contains "unknown remote method" faultString) then
             logging_error
               "DHCP sync failed, error code: %s, error string: %s"
               [PInt faultCode; PStr faultString]
           else ret tt
       | _ => ret tt
       end).

Definition timed_out_message (host : Host) : string :=
  "Host " +:+ hostname host +:+ " install timed out".

(** The end of [install_host], from [install_start = time.time()] on:
    the polling loop and what follows it. *)
Definition await_install (fuel : nat) (self : CobblerInterface)
    (host : Host) (system : string) (timeout : Q) : Py unit :=
  install_start <- time_time ;;
  st <- poll_loop fuel self system install_start timeout
          {| install_successful := false; time_elapsed := 0%Q |} ;;
  if negb (install_successful st) then
    let e_msg := timed_out_message host in
    host_record "END FAIL" PNone "install" e_msg ;;
    raise (HostInstallTimeoutError e_msg)
  else
    host_wait_for_restart ;;
    host_record "END GOOD" PNone "install" (hostname host) ;;
    t <- time_time ;;
    let time_elapsed := (t - install_start)%Q in
    logging_info "Machine %s installed successfuly after %d s (%d min)"
      [PStr (hostname host); PFloat time_elapsed;
       PFloat (time_elapsed / 60)%Q].

Definition install_host (fuel : nat) (self : CobblerInterface) (host : Host)
    (profile : pyval) (timeout : option Q) : Py unit :=
  if truthy (xmlrpc_url self) then
    let timeout := match timeout with
                   | None => (1 * 3600)%Q
                   | Some t => t
                   end in
    logging_info "Setting up machine %s install" [PStr (hostname host)] ;;
    remove_hosts_file ;;
    handles <- get_system_handle self host ;;
    let '(system, system_handle) := handles in
    let profile := if is_none profile then fallback_profile self
                   else profile in
    self_attr self "server" ;;
    system_info <- server_get_system system ;;
    let current_profile := dict_get system_info "profile" in
    profile <-
      (if truthy profile && negb (py_eqb profile current_profile) then
         self_attr self "server" ;;
         tok <- self_attr self "token" ;;
         server_modify_system system_handle "profile" profile tok ;;
         ret profile
       else ret current_profile) ;;
    self_attr self "server" ;;
    tok <- self_attr self "token" ;;
    server_modify_system system_handle "netboot_enabled" (PStr "True") tok ;;
    sync_dhcp_block self ;;
    self_attr self "server" ;;
    tok <- self_attr self "token" ;;
    server_save_system system_handle tok ;;
    self_attr self "server" ;;
    tok <- self_attr self "token" ;;
    server_power_system system_handle "reboot" tok ;;
    host_record "START" PNone "install" (hostname host) ;;
    host_record "GOOD" PNone "install.start" (hostname host) ;;
    logging_info "Installing machine %s with profile %s (timeout %s s)"
      [PStr (hostname host); profile; PFloat timeout] ;;
    await_install fuel self host system timeout
  else ret tt.

Definition power_host (self : CobblerInterface) (host : Host)
    (state : string) : Py unit :=
  if truthy (xmlrpc_url self) then
    handles <- get_system_handle self host ;;
    let system_handle := snd handles in
    self_attr self "server" ;;
    tok <- self_attr self "token" ;;
    server_power_system system_handle state tok
  else ret tt.

End Client.

(** ** Observing histories *)

Definition is_get_system (e : Event) : bool :=
  match e with Rpc (rpc_get_system _) => true | _ => false end.

Definition is_sleep (e : Event) : bool :=
  match e with Sleep _ => true | _ => false end.

(** A [modify_system] call that sets the field [field]. *)
Definition is_modify (field : string) (e : Event) : bool :=
  match e with
  | Rpc (rpc_modify_system _ f _ _) => String.eqb f field
  | _ => false
  end.

(** Calls that change the remote system. *)
Definition is_mutating (e : Event) : bool :=
  match e with
  | Rpc (rpc_modify_system _ _ _ _)
  | Rpc (rpc_save_system _ _)
  | Rpc (rpc_power_system _ _ _) => true
  | _ => false
  end.

Definition is_rpc (e : Event) : bool :=
  match e with Rpc _ => true | _ => false end.

Definition is_host_record (e : Event) : bool :=
  match e with HostRecord _ _ _ _ => true | _ => false end.

Definition count (p : Event -> bool) (l : list Event) : nat :=
  length (List.filter p l).

(** ** A scripted environment

    The server knows [systems], hands out [handle], answers the [n]-th
    [get_system] of a history (counted from 0) with [infos n], answers
    [sync_dhcp] with [sync], and every event takes [lat] seconds. *)
Definition scripted (systems : list string) (handle : string)
    (infos : nat -> gmap string pyval) (sync : Reply unit) (lat : Q) : Env :=
  {| env_login := fun _ _ _ => Ok "secret-token";
     env_find_system := fun _ _ => Ok systems;
     env_get_system_handle := fun _ _ _ => Ok handle;
     env_get_system := fun h _ => Ok (infos (count is_get_system (events h)));
     env_ack := fun _ c =>
       match c with rpc_sync_dhcp _ => sync | _ => Ok tt end;
     env_wait_for_restart := fun _ => Ok tt;
     env_home := Some "/root";
     env_isfile := fun _ _ => false;
     env_remove := fun _ _ => Ok tt;
     env_latency := fun _ _ => lat |}.

(** A system that leaves net-boot mode at its [n]-th status query. *)
Definition system_info (profile : string) (netboot : bool)
    : gmap string pyval :=
  {[ "profile" := PStr profile; "netboot_enabled" := PBool netboot ]}.

Definition clears_at (n : nat) (profile : string) (k : nat)
    : gmap string pyval :=
  system_info profile (k <? n)%nat.

(** A system that never leaves net-boot mode. *)
Definition never_clears (profile : string) (k : nat) : gmap string pyval :=
  system_info profile true.

Definition world0 : World := {| trace := []; now := 0 |}.

Definition session (fallback : pyval) : CobblerInterface :=
  {| xmlrpc_url := PStr "http://cobbler/cobbler_api";
     user := "autotest"; password := "secret";
     fallback_profile := fallback; token := Some "secret-token" |}.

Definition h1 : Host := {| hostname := "h1" |}.

(** ** Specifications of runs *)

(** [wp m post w]: running [m] from [w] ends in an outcome and a world
    that satisfy [post]. *)
Definition wp {A} (m : Py A) (post : Outcome A -> World -> Prop)
    (w : World) : Prop :=
  post (fst (m w)) (snd (m w)).

(** [emitted w0 p w]: [w] continues [w0] with events that all satisfy
    [p]. *)
Definition emitted (w0 : World) (p : Event -> Prop) (w : World) : Prop :=
  exists l, trace w = trace w0 ++ l /\ Forall p (events l).

Definition is_sync_dhcp (c : RpcCall) : bool :=
  match c with rpc_sync_dhcp _ => true | _ => false end.

(** The exceptions that a collaborator of [install_host] raises and that
    no handler of the client catches. *)
Inductive collaborator_raises (env : Env) : Exn -> Prop :=
| raised_by_remove h p e :
    env_remove env h p = Err e -> collaborator_raises env e
| raised_by_find_system h q e :
    env_find_system env h q = Err e -> is_index_error e = false ->
    collaborator_raises env e
| raised_by_get_system_handle h s t e :
    env_get_system_handle env h s t = Err e -> collaborator_raises env e
| raised_by_get_system h s e :
    env_get_system env h s = Err e -> collaborator_raises env e
| raised_by_ack h c e :
    env_ack env h c = Err e -> is_sync_dhcp c = false ->
    collaborator_raises env e
| raised_by_sync_dhcp h t e :
    env_ack env h (rpc_sync_dhcp t) = Err e -> is_fault e = false ->
    collaborator_raises env e
| raised_by_wait_for_restart h e :
    env_wait_for_restart env h = Err e -> collaborator_raises env e.

Definition not_registered_message (host : Host) : string :=
  "No system " +:+ hostname host +:+ " registered on install server".

(** The profile that the caller asks for: the argument, or the fallback
    profile of the session when the argument is [None]. *)
Definition target_profile (self : CobblerInterface) (profile : pyval)
    : pyval :=
  if is_none profile then fallback_profile self else profile.

(** What [install_host] guarantees of each event it adds to the history,
    for the target profile [target]: the profile is only ever set to a
    non-empty target, and the profile announced in the log is that target
    or the profile that the server reported. *)
Definition install_event (env : Env) (target : pyval) (e : Event) : Prop :=
  (forall hd f v t,
      e = Rpc (rpc_modify_system hd f v t) ->
      (f = "profile" /\ v = target /\ truthy target = true) \/
      f = "netboot_enabled") /\
  (forall hn p t,
      e = Log INFO "Installing machine %s with profile %s (timeout %s s)"
            [hn; p; t] ->
      (p = target /\ truthy target = true) \/
      exists h s info,
        env_get_system env h s = Ok info /\
        p = dict_get info "profile" /\
        truthy target && negb (py_eqb target p) = false).

Definition end_fail (host : Host) : Event :=
  HostRecord "END FAIL" PNone "install" (timed_out_message host).

(** What every run of [install_host] from [w] satisfies: its events are
    [install_event]s, and an exception that leaves it is the time-out
    (raised right after the "END FAIL" record), the "not registered"
    error, or an exception of a collaborator. *)
Definition install_post (env : Env) (host : Host) (target : pyval)
    (w : World) (r : Outcome unit) (w' : World) : Prop :=
  emitted w (install_event env target) w' /\
  forall e, r = Raise e ->
    (e = HostInstallTimeoutError (timed_out_message host) /\
     exists w'', emitted w (fun _ => True) w'' /\
                 w' = advance env (end_fail host) w'') \/
    e = ValueError (not_registered_message host) \/
    collaborator_raises env e.

(** Events other than [modify_system] calls and [logging.info]. *)
Definition plain_event (e : Event) : bool :=
  match e with
  | Rpc (rpc_modify_system _ _ _ _) => false
  | Log INFO _ _ => false
  | _ => true
  end.

(** *** A cooperative server

    The server knows the host as [system] and grants [handle]; the
    known-hosts file exists or not ([isfile]) and can be removed; the
    status query number [k] of a history (counted from 0) is answered with
    [infos k]; [sync_dhcp] is answered with [sync], which is an
    acknowledgement or a [Fault]; every other call is acknowledged, and the
    host comes back after its reboot. *)
Record cooperative (env : Env) (host : Host) (tok system handle : string)
    (isfile : bool) (infos : nat -> gmap string pyval) (sync : Reply unit)
    : Prop := {
  coop_isfile : forall h p, env_isfile env h p = isfile;
  coop_remove : forall h p, env_remove env h p = Ok tt;
  coop_find : forall h, exists others,
      env_find_system env h {[ "name" := PStr (hostname host) ]}
        = Ok (system :: others);
  coop_handle : forall h, env_get_system_handle env h system tok = Ok handle;
  coop_status : forall h,
      env_get_system env h system
        = Ok (infos (count is_get_system (events h)));
  coop_ack : forall h c, is_sync_dhcp c = false -> env_ack env h c = Ok tt;
  coop_sync : forall h, env_ack env h (rpc_sync_dhcp tok) = sync;
  coop_sync_fault :
    match sync with Ok _ => True | Err e => is_fault e = true end;
  coop_restart : forall h, env_wait_for_restart env h = Ok tt
}.

Definition effective_timeout (timeout : option Q) : Q :=
  match timeout with None => (1 * 3600)%Q | Some t => t end.

(** The profile installed: the target when it is non-empty and differs
    from the current one, else the current one. *)
Definition effective_profile (target current : pyval) : pyval :=
  if truthy target && negb (py_eqb target current) then target else current.

Definition set_profile_events (handle tok : string) (target current : pyval)
    : list Event :=
  if truthy target && negb (py_eqb target current)
  then [Rpc (rpc_modify_system handle "profile" target tok)]
  else [].

Definition sync_log_events (sync : Reply unit) : list Event :=
  match sync with
  | Err (Fault faultCode faultString) =>
      if contains "unknown remote method" faultString then []
      else [Log ERROR "DHCP sync failed, error code: %s, error string: %s"
              [PInt faultCode; PStr faultString]]
  | _ => []
  end.

Definition remove_hosts_events (env : Env) (isfile : bool) : list Event :=
  OsPathIsfile (known_hosts_path env)
  :: (if isfile
      then [Log DEBUG "Deleting known hosts file %s"
              [PStr (known_hosts_path env)];
            OsRemove (known_hosts_path env)]
      else []).

(** The events of [install_host] up to the polling loop, with a
    cooperative server. *)
Definition prelude_events (env : Env) (host : Host)
    (tok system handle : string) (isfile : bool) (target current : pyval)
    (sync : Reply unit) (timeout : Q) : list Event :=
  [Log INFO "Setting up machine %s install" [PStr (hostname host)]]
  ++ remove_hosts_events env isfile
  ++ [Rpc (rpc_find_system {[ "name" := PStr (hostname host) ]});
      Rpc (rpc_get_system_handle system tok);
      Rpc (rpc_get_system system)]
  ++ set_profile_events handle tok target current
  ++ [Rpc (rpc_modify_system handle "netboot_enabled" (PStr "True") tok);
      Rpc (rpc_sync_dhcp tok)]
  ++ sync_log_events sync
  ++ [Rpc (rpc_save_system handle tok);
      Rpc (rpc_power_system handle "reboot" tok);
      HostRecord "START" PNone "install" (hostname host);
      HostRecord "GOOD" PNone "install.start" (hostname host);
      Log INFO "Installing machine %s with profile %s (timeout %s s)"
        [PStr (hostname host); effective_profile target current;
         PFloat timeout]].

(** The events of the polling loop and of what follows it. *)
Definition is_await_event (e : Event) : bool :=
  match e with
  | Rpc (rpc_get_system _) | Sleep _ | TimeTime | WaitForRestart
  | HostRecord _ _ _ _ | Log INFO _ _ => true
  | _ => false
  end.

Definition is_modify_system (e : Event) : bool :=
  match e with Rpc (rpc_modify_system _ _ _ _) => true | _ => false end.

Definition is_error_log (e : Event) : bool :=
  match e with Log ERROR _ _ => true | _ => false end.

(** *** Time *)

Definition Qnat (n : nat) : Q := inject_Z (Z.of_nat n).

(** Every event takes at least [lo] seconds (beyond the requested
    duration, for a sleep). *)
Definition latency_at_least (env : Env) (lo : Q) : Prop :=
  forall h e, (lo <= env_latency env h e)%Q.


(** One failed poll: sleep, query, read the clock. *)
Definition poll_cycle (system : string) : list Event :=
  [Sleep step_time; Rpc (rpc_get_system system); TimeTime].

Fixpoint poll_cycles (n : nat) (system : string) : list Event :=
  match n with
  | O => []
  | S n' => poll_cycle system ++ poll_cycles n' system
  end.

(** The net-boot flag as the status query number [k] reports it. *)
Definition netboot (infos : nat -> gmap string pyval) (k : nat) : bool :=
  truthy (dict_get (infos k) "netboot_enabled").


(** *** Further observers and environments *)

Definition is_power_system (e : Event) : bool :=
  match e with Rpc (rpc_power_system _ _ _) => true | _ => false end.

Definition is_os_remove (e : Event) : bool :=
  match e with OsRemove _ => true | _ => false end.

Definition is_time_time (e : Event) : bool :=
  match e with TimeTime => true | _ => false end.

(** How a call ends, given the reply of the environment. *)
Definition reply_outcome {A} (r : Reply A) : Outcome A :=
  match r with Ok a => Ret a | Err e => Raise e end.

(** [env], except that [find_system] is answered with [r]. *)
Definition with_find_system (env : Env) (r : Reply (list string)) : Env :=
  {| env_login := env_login env;
     env_find_system := fun _ _ => r;
     env_get_system_handle := env_get_system_handle env;
     env_get_system := env_get_system env;
     env_ack := env_ack env;
     env_wait_for_restart := env_wait_for_restart env;
     env_home := env_home env;
     env_isfile := env_isfile env;
     env_remove := env_remove env;
     env_latency := env_latency env |}.

(** [env], except that [power_system] is answered with [r]. *)
Definition with_power_system (env : Env) (r : Reply unit) : Env :=
  {| env_login := env_login env;
     env_find_system := env_find_system env;
     env_get_system_handle := env_get_system_handle env;
     env_get_system := env_get_system env;
     env_ack := fun h c =>
       match c with rpc_power_system _ _ _ => r | _ => env_ack env h c end;
     env_wait_for_restart := env_wait_for_restart env;
     env_home := env_home env;
     env_isfile := env_isfile env;
     env_remove := env_remove env;
     env_latency := env_latency env |}.

(** [env], except that the known-hosts file exists and [os.remove] is
    answered with [r]. *)
Definition with_known_hosts (env : Env) (r : Reply unit) : Env :=
  {| env_login := env_login env;
     env_find_system := env_find_system env;
     env_get_system_handle := env_get_system_handle env;
     env_get_system := env_get_system env;
     env_ack := env_ack env;
     env_wait_for_restart := env_wait_for_restart env;
     env_home := env_home env;
     env_isfile := fun _ _ => true;
     env_remove := fun _ _ => r;
     env_latency := env_latency env |}.

(** [env], except that [wait_for_restart] is answered with [r]. *)
Definition with_wait_for_restart (env : Env) (r : Reply unit) : Env :=
  {| env_login := env_login env;
     env_find_system := env_find_system env;
     env_get_system_handle := env_get_system_handle env;
     env_get_system := env_get_system env;
     env_ack := env_ack env;
     env_wait_for_restart := fun _ => r;
     env_home := env_home env;
     env_isfile := env_isfile env;
     env_remove := env_remove env;
     env_latency := env_latency env |}.

(** The server of the examples: it knows "h1", whose flag clears at the
    second poll. *)
Definition lab : Env := scripted ["h1"] "hd" (clears_at 2 "old") (Ok tt) 0.

(** *** Milestones of an install

    The calls that change the remote system, the host records and the wait
    for the restart. *)
Definition is_wait_for_restart (e : Event) : bool :=
  match e with WaitForRestart => true | _ => false end.

Definition is_milestone (e : Event) : bool :=
  is_mutating e || is_host_record e || is_wait_for_restart e.

(** Neither a milestone nor a sleep. *)
Definition quiet (e : Event) : bool :=
  negb (is_milestone e) && negb (is_sleep e).

(** The call that sets the profile, when there is one: it sets the target,
    which is then not empty. *)
Definition profile_call_ok (handle tok : string) (target : pyval)
    (pc : list Event) : Prop :=
  pc = [] \/
  (pc = [Rpc (rpc_modify_system handle "profile" target tok)] /\
   truthy target = true).

(** The calls of the prelude that change the remote system, in order. *)
Definition prelude_mutations (handle tok : string) (pc : list Event)
    : list Event :=
  pc ++ [Rpc (rpc_modify_system handle "netboot_enabled" (PStr "True") tok);
         Rpc (rpc_save_system handle tok);
         Rpc (rpc_power_system handle "reboot" tok)].

(** The milestones of the prelude, in order. *)
Definition prelude_milestones (host : Host) (handle tok : string)
    (pc : list Event) : list Event :=
  prelude_mutations handle tok pc
  ++ [HostRecord "START" PNone "install" (hostname host);
      HostRecord "GOOD" PNone "install.start" (hostname host)].

(** The two ways in which the milestones of an install end. *)
Definition ending_ok (host : Host) (ending : list Event) : Prop :=
  ending = [end_fail host] \/
  ending = [WaitForRestart;
            HostRecord "END GOOD" PNone "install" (hostname host)].

(** [reached w0 ms w]: [w] continues [w0] without a sleep, and with the
    milestones [ms]. *)
Definition reached (w0 : World) (ms : list Event) (w : World) : Prop :=
  exists l,
    trace w = trace w0 ++ l /\
    List.filter is_milestone (events l) = ms /\
    count is_sleep (events l) = 0%nat.

(** Where the prelude of [install_host] ends: in an exception, with a
    prefix of the milestones reached, or at the polling phase, with all of
    them. *)
Definition prelude_post (env : Env) (fuel : nat) (self : CobblerInterface)
    (host : Host) (tok : string) (target : pyval) (timeout : Q) (w : World)
    (r : Outcome unit) (w' : World) : Prop :=
  (exists e handle pc ms rest,
      r = Raise e /\
      profile_call_ok handle tok target pc /\
      reached w ms w' /\
      ms ++ rest = prelude_mutations handle tok pc) \/
  (exists system w1 handle pc,
      (r, w') = await_install env fuel self host system timeout w1 /\
      profile_call_ok handle tok target pc /\
      reached w (prelude_milestones host handle tok pc) w1).

(** How the polling phase ends, with the milestones [ms] it has added. *)
Inductive await_end (env : Env) (host : Host) (system : string)
    : Outcome unit -> list Event -> Prop :=
| await_good :
    await_end env host system (Ret tt)
      [WaitForRestart; HostRecord "END GOOD" PNone "install" (hostname host)]
| await_timed_out :
    await_end env host system
      (Raise (HostInstallTimeoutError (timed_out_message host)))
      [end_fail host]
| await_restart_failed h e :
    env_wait_for_restart env h = Err e ->
    await_end env host system (Raise e) [WaitForRestart]
| await_query_failed h e :
    env_get_system env h system = Err e ->
    await_end env host system (Raise e) []
| await_out_of_fuel :
    await_end env host system OutOfFuel [].

(** The events of a polling loop. *)
Definition loop_events (system : string) (loop : list Event) : Prop :=
  exists n,
    loop = poll_cycles n system \/
    loop = poll_cycles n system
           ++ [Sleep step_time; Rpc (rpc_get_system system)].

(** A host record with the status [status]. *)
Definition is_record (status : string) (e : Event) : bool :=
  match e with
  | HostRecord s _ _ _ => String.eqb s status
  | _ => false
  end.

(** The anatomy of a run of [install_host] that has added [new] to the
    history and ended in [r]: it stopped in the prelude, or it went through
    the prelude, a clock read, the loop and an ending. *)
Definition install_anatomy (env : Env) (host : Host) (tok : string)
    (target : pyval) (r : Outcome unit) (new : list Event) : Prop :=
  (exists e handle pc rest,
      r = Raise e /\
      profile_call_ok handle tok target pc /\
      List.filter is_milestone new ++ rest
        = prelude_mutations handle tok pc /\
      count is_sleep new = 0%nat) \/
  (exists system handle pc pre loop after ms,
      new = pre ++ TimeTime :: loop ++ after /\
      count is_sleep pre = 0%nat /\
      List.filter is_milestone pre = prelude_milestones host handle tok pc /\
      profile_call_ok handle tok target pc /\
      loop_events system loop /\
      List.filter is_milestone after = ms /\
      count is_sleep after = 0%nat /\
      await_end env host system r ms).


Definition is_save_system (e : Event) : bool :=
  match e with Rpc (rpc_save_system _ _) => true | _ => false end.


Definition no_endpoint : Kwargs :=
  {| kw_xmlrpc_url := PStr ""; kw_user := "autotest";
     kw_password := "secret"; kw_fallback_profile := PStr "f17" |}.

(** * Properties *)

(** ** Reasoning about runs *)


Lemma Qlt_bool_false x y : Qlt_bool x y = false <-> (y <= x)%Q.
Proof.
  unfold Qlt_bool. rewrite negb_false_iff. apply Qle_bool_iff.
Qed.

Lemma count_app p l1 l2 : count p (l1 ++ l2) = (count p l1 + count p l2)%nat.
Proof. unfold count. rewrite List.filter_app. apply List.length_app. Qed.

Lemma count_cons p e l :
  count p (e :: l) = ((if p e then 1 else 0) + count p l)%nat.
Proof. unfold count. simpl. destruct (p e); reflexivity. Qed.

Lemma events_app h1 h2 : events (h1 ++ h2) = events h1 ++ events h2.
Proof. apply List.map_app. Qed.

Section Runs.

Variable env : Env.

(** The equations of [bind]. *)
Lemma bind_ret {A B} (a : A) (k : A -> Py B) w : bind (ret a) k w = k a w.
Proof. reflexivity. Qed.

Lemma bind_raise {A B} (e : Exn) (k : A -> Py B) w :
  bind (raise e) k w = (Raise e, w).
Proof. reflexivity. Qed.

Lemma bind_assoc {A B C} (m : Py A) (k1 : A -> Py B) (k2 : B -> Py C) w :
  bind (bind m k1) k2 w = bind m (fun a => bind (k1 a) k2) w.
Proof. unfold bind. destruct (m w) as [[a| e |] w']; reflexivity. Qed.

Lemma bind_ask_ok {A B} e (oracle : History -> Reply A) (k : A -> Py B) w a :
  oracle (trace w) = Ok a ->
  bind (ask env e oracle) k w = k a (advance env e w).
Proof. intros H. unfold bind, ask. rewrite H. reflexivity. Qed.

Lemma bind_ask_err {A B} e (oracle : History -> Reply A) (k : A -> Py B) w x :
  oracle (trace w) = Err x ->
  bind (ask env e oracle) k w = (Raise x, advance env e w).
Proof. intros H. unfold bind, ask. rewrite H. reflexivity. Qed.

Lemma bind_perform {B} e (k : unit -> Py B) w :
  bind (perform env e) k w = k tt (advance env e w).
Proof. reflexivity. Qed.

Lemma bind_time_time {B} (k : Q -> Py B) w :
  bind (time_time env) k w = k (now w) (advance env TimeTime w).
Proof. reflexivity. Qed.

Lemma self_attr_some self name tok :
  token self = Some tok -> self_attr self name = ret tok.
Proof. intros H. unfold self_attr. rewrite H. reflexivity. Qed.

Lemma trace_advance e w :
  trace (advance env e w) = trace w ++ [(now w, e)].
Proof. reflexivity. Qed.

Lemma now_advance e w :
  now (advance env e w) = (now w + duration env (trace w) e)%Q.
Proof. reflexivity. Qed.

(** *** Weakest preconditions *)

Lemma wp_ret {A} (a : A) (post : Outcome A -> World -> Prop) w :
  post (Ret a) w -> wp (ret a) post w.
Proof. exact (fun H => H). Qed.

Lemma wp_raise {A} e (post : Outcome A -> World -> Prop) w :
  post (Raise e) w -> wp (raise e) post w.
Proof. exact (fun H => H). Qed.

Lemma wp_bind {A B} (m : Py A) (k : A -> Py B)
    (post : Outcome B -> World -> Prop) w :
  wp m (fun r w' =>
          match r with
          | Ret a => wp (k a) post w'
          | Raise e => post (Raise e) w'
          | OutOfFuel => post OutOfFuel w'
          end) w ->
  wp (bind m k) post w.
Proof.
  unfold wp, bind. destruct (m w) as [[a| e |] w']; simpl; auto.
Qed.

Lemma wp_try_except {A} (m : Py A) (handles : Exn -> bool)
    (handler : Exn -> Py A)
    (post : Outcome A -> World -> Prop) w :
  wp m (fun r w' =>
          match r with
          | Raise e =>
              if handles e then wp (handler e) post w'
              else post (Raise e) w'
          | _ => post r w'
          end) w ->
  wp (try_except m handles handler) post w.
Proof.
  unfold wp, try_except. destruct (m w) as [[a| e |] w']; simpl; auto.
  destruct (handles e); auto.
Qed.

Lemma wp_ask {A} e (oracle : History -> Reply A)
    (post : Outcome A -> World -> Prop) w :
  (forall a, oracle (trace w) = Ok a -> post (Ret a) (advance env e w)) ->
  (forall x, oracle (trace w) = Err x -> post (Raise x) (advance env e w)) ->
  wp (ask env e oracle) post w.
Proof.
  intros Hok Herr. unfold wp, ask.
  destruct (oracle (trace w)) as [a|x]; simpl; auto.
Qed.

Lemma wp_perform e (post : Outcome unit -> World -> Prop) w :
  post (Ret tt) (advance env e w) -> wp (perform env e) post w.
Proof. exact (fun H => H). Qed.

Lemma wp_time_time (post : Outcome Q -> World -> Prop) w :
  post (Ret (now w)) (advance env TimeTime w) -> wp (time_time env) post w.
Proof. exact (fun H => H). Qed.

Lemma wp_self_attr self name tok (post : Outcome string -> World -> Prop) w :
  token self = Some tok ->
  post (Ret tok) w -> wp (self_attr self name) post w.
Proof. intros H. rewrite (self_attr_some _ _ _ H). exact (fun H => H). Qed.

(** *** What a run has added to the history *)

Lemma emitted_refl w p : emitted w p w.
Proof. exists []. split; [symmetry; apply List.app_nil_r | constructor]. Qed.

Lemma emitted_advance w0 p w e :
  emitted w0 p w -> p e -> emitted w0 p (advance env e w).
Proof.
  intros [l [Hl Hp]] He. exists (l ++ [(now w, e)]). split.
  - rewrite trace_advance, Hl. symmetry. apply List.app_assoc.
  - rewrite events_app. apply Forall_app. split; [exact Hp|].
    repeat constructor. exact He.
Qed.

Lemma emitted_weaken w0 (p q : Event -> Prop) w :
  (forall e, p e -> q e) -> emitted w0 p w -> emitted w0 q w.
Proof.
  intros Hpq [l [Hl Hp]]. exists l. split; [exact Hl|].
  eapply Forall_impl; eassumption.
Qed.

End Runs.

(** ** A client without an endpoint *)

(** C3. A client constructed with an empty [xmlrpc_url] is built without
    contacting the server, and its [install_host] and [power_host] return
    normally and leave the world as it was, whatever the host, profile,
    timeout, power state and fuel: no remote call, no error, no host
    record. *)
Theorem disabled_client_is_noop (env : Env) (kwargs : Kwargs) (w0 : World) :
  truthy (kw_xmlrpc_url kwargs) = false ->
  exists self,
    __init__ env kwargs w0 = (Ret self, w0) /\
    forall fuel host profile timeout state w,
      install_host env fuel self host profile timeout w = (Ret tt, w) /\
      power_host env self host state w = (Ret tt, w).
Proof.
  intros Hurl.
  unfold __init__. cbn [xmlrpc_url]. rewrite Hurl.
  eexists. split; [reflexivity|].
  intros fuel host profile timeout state w.
  unfold install_host, power_host. cbn [xmlrpc_url]. rewrite Hurl.
  split; reflexivity.
Qed.

Lemma disabled_client_is_noop_witness :
  truthy (kw_xmlrpc_url no_endpoint) = false /\
  exists self,
    __init__ (scripted ["h1"] "hd" (clears_at 1 "old") (Ok tt) 0)
      no_endpoint world0 = (Ret self, world0) /\
    forall fuel host profile timeout state w,
      install_host (scripted ["h1"] "hd" (clears_at 1 "old") (Ok tt) 0)
        fuel self host profile timeout w = (Ret tt, w) /\
      power_host (scripted ["h1"] "hd" (clears_at 1 "old") (Ok tt) 0)
        self host state w = (Ret tt, w).
Proof.
  split; [reflexivity|].
  apply (disabled_client_is_noop _ no_endpoint world0). reflexivity.
Defined.

(** ** Hosts the server does not know *)

(** C5. When [find_system] returns the empty list, [get_system_handle]
    raises the "not registered" [ValueError] naming the host, after the
    query and an error log only: no mutating remote call is made. The same
    holds for [power_host], which resolves the handle first. *)
Theorem unregistered_host_is_reported (env : Env) (self : CobblerInterface)
    (host : Host) (tok : string) (w : World) :
  token self = Some tok ->
  env_find_system env (trace w) {[ "name" := PStr (hostname host) ]} = Ok [] ->
  exists w',
    get_system_handle env self host w
      = (Raise (ValueError (not_registered_message host)), w') /\
    events (trace w')
      = events (trace w)
        ++ [Rpc (rpc_find_system {[ "name" := PStr (hostname host) ]});
            Log ERROR "Error finding %s: %s"
              [PStr (hostname host); PStr "list index out of range"]] /\
    count is_mutating
      [Rpc (rpc_find_system {[ "name" := PStr (hostname host) ]});
       Log ERROR "Error finding %s: %s"
         [PStr (hostname host); PStr "list index out of range"]] = 0%nat /\
    forall state,
      truthy (xmlrpc_url self) = true ->
      power_host env self host state w
        = (Raise (ValueError (not_registered_message host)), w').
Proof.
  intros Htok Hfind.
  assert (Hrun : exists w',
    get_system_handle env self host w
      = (Raise (ValueError (not_registered_message host)), w') /\
    events (trace w')
      = events (trace w)
        ++ [Rpc (rpc_find_system {[ "name" := PStr (hostname host) ]});
            Log ERROR "Error finding %s: %s"
              [PStr (hostname host); PStr "list index out of range"]]).
  { eexists. split.
    - unfold get_system_handle, bind at 1, try_except.
      rewrite (self_attr_some _ _ _ Htok), bind_ret.
      unfold server_find_system.
      rewrite (bind_ask_ok env _ _ _ _ _ Hfind).
      cbn [raise is_index_error]. unfold logging_error.
      rewrite bind_perform. reflexivity.
    - rewrite !trace_advance, !events_app. cbn [events map snd].
      rewrite <- List.app_assoc. reflexivity. }
  destruct Hrun as [w' [Hrun Hev]].
  exists w'. repeat split; try assumption.
  intros state Hurl. unfold power_host. rewrite Hurl.
  unfold bind at 1. rewrite Hrun. reflexivity.
Qed.

Lemma unregistered_host_is_reported_witness :
  exists w',
    get_system_handle (scripted [] "hd" (clears_at 1 "old") (Ok tt) 0)
      (session PNone) h1 world0
      = (Raise (ValueError (not_registered_message h1)), w').
Proof.
  destruct (unregistered_host_is_reported
              (scripted [] "hd" (clears_at 1 "old") (Ok tt) 0)
              (session PNone) h1 "secret-token" world0
              eq_refl eq_refl) as [w' [H _]].
  exists w'. exact H.
Defined.

(** ** Every run of [install_host] *)

Section AllRuns.

Variable env : Env.
Variable self : CobblerInterface.
Variable tok : string.
Hypothesis Htok : token self = Some tok.

(** Whatever the server answers, the polling loop only sleeps, queries
    and reads the clock, and passes on nothing but a failure of
    [get_system]. *)
Lemma wp_poll_loop (w0 : World) (p : Event -> Prop) system start timeout :
  p (Sleep step_time) -> p (Rpc (rpc_get_system system)) -> p TimeTime ->
  forall fuel st w,
    emitted w0 p w ->
    wp (poll_loop env fuel self system start timeout st)
       (fun r w' =>
          emitted w0 p w' /\
          forall e, r = Raise e ->
            exists h, env_get_system env h system = Err e) w.
Proof.
  intros Hsleep Hget Htime.
  induction fuel as [|fuel IH]; intros st w Hw.
  - split; [exact Hw | discriminate].
  - cbn [poll_loop].
    destruct (Qlt_bool (time_elapsed st) timeout).
    + apply wp_bind, wp_perform.
      apply wp_bind, (wp_self_attr _ _ tok _ _ Htok).
      apply wp_bind, wp_ask.
      * intros info Hinfo.
        destruct (negb (truthy (dict_get info "netboot_enabled"))).
        -- apply wp_ret. split; [|discriminate].
           auto using emitted_advance.
        -- apply wp_bind, wp_time_time. apply IH.
           auto using emitted_advance.
      * intros x Hx. split; [auto using emitted_advance|].
        intros e [= <-]. eauto.
    + apply wp_ret. split; [exact Hw | discriminate].
Qed.

Lemma wp_conseq {A} (m : Py A) (post post' : Outcome A -> World -> Prop) w :
  wp m post w -> (forall r w', post r w' -> post' r w') -> wp m post' w.
Proof. unfold wp. auto. Qed.

Section Blocks.

Variable w0 : World.
Variable p : Event -> Prop.
Hypothesis Hplain : forall e, plain_event e = true -> p e.

Lemma emitted_plain w e :
  emitted w0 p w -> plain_event e = true -> emitted w0 p (advance env e w).
Proof. intros Hw He. apply emitted_advance; auto. Qed.

Lemma wp_remove_hosts_file w :
  emitted w0 p w ->
  wp (remove_hosts_file env)
     (fun r w' =>
        emitted w0 p w' /\
        forall e, r = Raise e -> collaborator_raises env e) w.
Proof.
  intros Hw. unfold remove_hosts_file.
  apply wp_bind, wp_ask; [|discriminate]. intros [|] _.
  - apply wp_bind, wp_perform, wp_ask.
    + intros [] _. split; [|discriminate].
      auto using emitted_plain.
    + intros x Hx. split; [auto using emitted_plain|].
      intros e [= <-]. eapply raised_by_remove; eassumption.
  - apply wp_ret. split; [|discriminate]. auto using emitted_plain.
Qed.

Lemma wp_get_system_handle host w :
  emitted w0 p w ->
  wp (get_system_handle env self host)
     (fun r w' =>
        emitted w0 p w' /\
        forall e, r = Raise e ->
          e = ValueError (not_registered_message host) \/
          collaborator_raises env e) w.
Proof.
  intros Hw. unfold get_system_handle.
  apply wp_bind, wp_try_except.
  apply wp_bind, (wp_self_attr _ _ tok _ _ Htok).
  apply wp_bind, wp_ask.
  - intros [|system others] Hfound.
    + apply wp_raise. cbn [is_index_error].
      apply wp_bind, wp_perform, wp_raise.
      split; [auto using emitted_plain|].
      intros e [= <-]. left. reflexivity.
    + apply wp_ret.
      apply wp_bind, (wp_self_attr _ _ tok _ _ Htok).
      apply wp_bind, (wp_self_attr _ _ tok _ _ Htok).
      apply wp_bind, wp_ask.
      * intros hd _. apply wp_ret. split; [|discriminate].
        auto using emitted_plain.
      * intros x Hx. split; [auto using emitted_plain|].
        intros e [= <-]. right.
        eapply raised_by_get_system_handle; eassumption.
  - intros x Hx. destruct (is_index_error x) eqn:Hix.
    + apply wp_bind, wp_perform, wp_raise.
      split; [auto using emitted_plain|].
      intros e [= <-]. left. reflexivity.
    + split; [auto using emitted_plain|].
      intros e [= <-]. right.
      eapply raised_by_find_system; eassumption.
Qed.

(** The [try] block around [sync_dhcp]: a [Fault] never leaves it. *)
Lemma wp_sync_dhcp_block w :
  emitted w0 p w ->
  wp (sync_dhcp_block env self)
     (fun r w' =>
        emitted w0 p w' /\
        forall e, r = Raise e -> collaborator_raises env e) w.
Proof.
  intros Hw. unfold sync_dhcp_block. apply wp_try_except.
  apply wp_bind, (wp_self_attr _ _ tok _ _ Htok).
  apply wp_bind, (wp_self_attr _ _ tok _ _ Htok).
  apply wp_ask.
  - intros [] _. split; [|discriminate]. auto using emitted_plain.
  - intros x Hx. destruct x; cbn [is_fault];
      try (split; [auto using emitted_plain|];
           intros e [= <-]; eapply raised_by_sync_dhcp;
           [eassumption | reflexivity]).
    destruct (negb (contains "unknown remote method" faultString)).
    + apply wp_perform. split; [|discriminate].
      auto using emitted_plain.
    + apply wp_ret. split; [|discriminate]. auto using emitted_plain.
Qed.

End Blocks.

Lemma plain_install_event target e :
  plain_event e = true -> install_event env target e.
Proof.
  intros He. split; intros; subst; discriminate.
Qed.

Lemma install_host_runs fuel host profile timeout w :
  truthy (xmlrpc_url self) = true ->
  wp (install_host env fuel self host profile timeout)
     (install_post env host (target_profile self profile) w) w.
Proof.
  intros Hurl. unfold install_host. rewrite Hurl.
  fold (target_profile self profile).
  set (target := target_profile self profile).
  pose proof (plain_install_event target) as Hplain.
  assert (Hadv : forall w1 e, emitted w (install_event env target) w1 ->
                   plain_event e = true ->
                   emitted w (install_event env target) (advance env e w1))
    by (intros; apply emitted_plain; auto).
  assert (Hfail : forall w1 x,
            emitted w (install_event env target) w1 ->
            collaborator_raises env x ->
            install_post env host target w (Raise x) w1).
  { intros w1 x Hw1 Hx. split; [exact Hw1|].
    intros e [= <-]. right. right. exact Hx. }
  apply wp_bind, wp_perform.
  assert (Hw1 : emitted w (install_event env target)
                  (advance env (Log INFO "Setting up machine %s install"
                                  [PStr (hostname host)]) w)).
  { apply emitted_advance; [apply emitted_refl|].
    split; intros; discriminate. }
  revert Hw1. generalize (advance env (Log INFO "Setting up machine %s install"
                                  [PStr (hostname host)]) w) as w1.
  intros w1 Hw1.
  apply wp_bind.
  eapply wp_conseq; [apply (wp_remove_hosts_file _ _ Hplain _ Hw1)|].
  clear w1 Hw1. intros [[]| x |] w1 [Hw1 Hexn]; [| auto | split; [auto|discriminate]].
  apply wp_bind.
  eapply wp_conseq; [apply (wp_get_system_handle _ _ Hplain host _ Hw1)|].
  clear w1 Hw1 Hexn.
  intros [[system system_handle]| x |] w1 [Hw1 Hexn];
    [| split; [auto|]; intros e [= <-]; right; auto
     | split; [auto|discriminate]].
  apply wp_bind, (wp_self_attr _ _ tok _ _ Htok).
  apply wp_bind, wp_ask; [|intros x Hx; apply Hfail; auto;
                            eapply raised_by_get_system; eassumption].
  intros info Hinfo.
  assert (Hw2 : emitted w (install_event env target)
                  (advance env (Rpc (rpc_get_system system)) w1)) by auto.
  revert Hw2. generalize (advance env (Rpc (rpc_get_system system)) w1) as w2.
  intros w2 Hw2.
  set (current := dict_get info "profile").
  apply wp_bind.
  apply wp_conseq with
    (post := fun r w' =>
       emitted w (install_event env target) w' /\
       (forall e, r = Raise e -> collaborator_raises env e) /\
       (forall p0, r = Ret p0 ->
          (p0 = target /\ truthy target = true) \/
          (p0 = current /\
           truthy target && negb (py_eqb target p0) = false))).
  { destruct (truthy target && negb (py_eqb target current)) eqn:Hcond.
    - apply andb_true_iff in Hcond as [Htruthy _].
      apply wp_bind, (wp_self_attr _ _ tok _ _ Htok).
      apply wp_bind, (wp_self_attr _ _ tok _ _ Htok).
      assert (Hmod : emitted w (install_event env target)
                (advance env
                   (Rpc (rpc_modify_system system_handle "profile" target tok))
                   w2)).
      { apply emitted_advance; [exact Hw2|].
        split; intros; [|discriminate].
        injection H as <- <- <- <-. left. auto. }
      apply wp_bind, wp_ask.
      + intros [] _. apply wp_ret. repeat split; auto; try discriminate.
        intros p0 [= <-]. left. auto.
      + intros x Hx. repeat split; auto; try discriminate.
        intros e [= <-]. eapply raised_by_ack; [eassumption|reflexivity].
    - apply wp_ret. repeat split; auto; try discriminate.
      intros p0 [= <-]. right. auto. }
  clear w2 Hw2.
  intros [p0| x |] w2 [Hw2 [Hexn2 Hp0]];
    [| auto | split; [auto|discriminate]].
  specialize (Hp0 p0 eq_refl).
  apply wp_bind, (wp_self_attr _ _ tok _ _ Htok).
  apply wp_bind, (wp_self_attr _ _ tok _ _ Htok).
  assert (Hw3 : emitted w (install_event env target)
            (advance env
               (Rpc (rpc_modify_system system_handle "netboot_enabled"
                       (PStr "True") tok)) w2)).
  { apply emitted_advance; [exact Hw2|].
    split; intros; [|discriminate].
    injection H as <- <- <- <-. right. reflexivity. }
  apply wp_bind, wp_ask;
    [| intros x Hx; apply Hfail; auto;
       eapply raised_by_ack; [eassumption|reflexivity]].
  intros [] _.
  revert Hw3. generalize (advance env
               (Rpc (rpc_modify_system system_handle "netboot_enabled"
                       (PStr "True") tok)) w2) as w3.
  clear w2 Hw2 Hexn2. intros w3 Hw3.
  apply wp_bind.
  eapply wp_conseq; [apply (wp_sync_dhcp_block _ _ Hplain _ Hw3)|].
  clear w3 Hw3.
  intros [[]| x |] w3 [Hw3 Hexn3]; [| auto | split; [auto|discriminate]].
  apply wp_bind, (wp_self_attr _ _ tok _ _ Htok).
  apply wp_bind, (wp_self_attr _ _ tok _ _ Htok).
  apply wp_bind, wp_ask;
    [| intros x Hx; apply Hfail; auto;
       eapply raised_by_ack; [eassumption|reflexivity]].
  intros [] _.
  apply wp_bind, (wp_self_attr _ _ tok _ _ Htok).
  apply wp_bind, (wp_self_attr _ _ tok _ _ Htok).
  apply wp_bind, wp_ask;
    [| intros x Hx; apply Hfail; auto;
       eapply raised_by_ack; [eassumption|reflexivity]].
  intros [] _.
  apply wp_bind, wp_perform.
  apply wp_bind, wp_perform.
  apply wp_bind, wp_perform.
  unfold await_install.
  apply wp_bind, wp_time_time.
  match goal with
  | |- wp (bind (poll_loop _ _ _ _ (now ?wl) _ _) _) _ (advance _ _ ?wl') =>
      assert (Hwl : emitted w (install_event env target) wl);
      [| revert Hwl; generalize wl as w4; intros w4 Hw4 ]
  end.
  { apply emitted_advance; [auto 6|].
    split; intros; [discriminate|].
    injection H as <- <- <-.
    destruct Hp0 as [[-> Ht]|[-> Hc]]; [left; auto|].
    right. exists (trace w1), system, info. auto. }
  clear w3 Hw3 Hexn3.
  apply wp_bind.
  eapply wp_conseq;
    [apply (wp_poll_loop w (install_event env target)); auto |].
  intros [st| x |] w5 [Hw5 Hexn5];
    [| destruct (Hexn5 x eq_refl) as [h Hh]; apply Hfail; auto;
       eapply raised_by_get_system; eassumption
     | split; [auto|discriminate]].
  destruct (negb (install_successful st)).
  - apply wp_bind, wp_perform, wp_raise. split; [auto|].
    intros e [= <-]. left. split; [reflexivity|].
    exists w5. split; [|reflexivity].
    eapply emitted_weaken; [|exact Hw5]. auto.
  - apply wp_bind, wp_ask;
      [| intros x Hx; apply Hfail; auto;
         eapply raised_by_wait_for_restart; eassumption].
    intros [] _.
    apply wp_bind, wp_perform.
    apply wp_bind, wp_time_time.
    apply wp_perform. split; [|discriminate].
    apply emitted_advance; [auto 6|].
    split; intros; discriminate.
Qed.

End AllRuns.

(** The events that a run has added, read off its final world. *)
Lemma install_host_outcome env fuel self host profile timeout tok w r w' :
  truthy (xmlrpc_url self) = true ->
  token self = Some tok ->
  install_host env fuel self host profile timeout w = (r, w') ->
  exists new,
    trace w' = trace w ++ new /\
    Forall (install_event env (target_profile self profile)) (events new) /\
    forall e, r = Raise e ->
      (e = HostInstallTimeoutError (timed_out_message host) /\
       exists pre, events new = pre ++ [end_fail host]) \/
      e = ValueError (not_registered_message host) \/
      collaborator_raises env e.
Proof.
  intros Hurl Htok Hrun.
  pose proof (install_host_runs env self tok Htok fuel host profile timeout w
                Hurl) as H.
  unfold wp in H. rewrite Hrun in H. cbn [fst snd] in H.
  destruct H as [[new [Hnew Hev]] Hexn].
  exists new. repeat split; try assumption.
  intros e He. destruct (Hexn e He) as [[-> [w'' [[l [Hl _]] ->]]]|H]; auto.
  left. split; [reflexivity|].
  rewrite trace_advance, Hl, <- List.app_assoc in Hnew.
  apply List.app_inv_head in Hnew. subst new.
  exists (events l). rewrite events_app. reflexivity.
Qed.

(** ** Which errors leave [install_host] *)




Lemma scripted_raises_nothing systems handle infos lat e :
  ~ collaborator_raises (scripted systems handle infos (Ok tt) lat) e.
Proof.
  intros H. inversion H; subst; cbn in *; try discriminate.
  destruct c; discriminate.
Qed.

(** ** The failure record *)

(** C8. When [install_host] ends in the time-out error (one of its own:
    no collaborator raises a [HostInstallTimeoutError]), the last event
    before the error is the host record
    [record("END FAIL", None, "install", message)], and its message is the
    "install timed out" message that the error carries. *)
Theorem timeout_is_recorded env fuel self host profile timeout tok w msg w' :
  truthy (xmlrpc_url self) = true ->
  token self = Some tok ->
  (forall m, ~ collaborator_raises env (HostInstallTimeoutError m)) ->
  install_host env fuel self host profile timeout w
    = (Raise (HostInstallTimeoutError msg), w') ->
  msg = timed_out_message host /\
  exists pre,
    events (trace w')
      = events (trace w) ++ pre ++ [HostRecord "END FAIL" PNone "install" msg].
Proof.
  intros Hurl Htok Hcollab Hrun.
  destruct (install_host_outcome _ _ _ _ _ _ _ _ _ _ Hurl Htok Hrun)
    as [new [Hnew [_ Hexn]]].
  destruct (Hexn _ eq_refl) as [[[= ->] [pre Hpre]]|[H|H]];
    [| discriminate | destruct (Hcollab _ H)].
  split; [reflexivity|].
  exists pre. rewrite Hnew, events_app, Hpre. reflexivity.
Qed.

Lemma timeout_is_recorded_witness :
  "Host h1 install timed out" = timed_out_message h1 /\
  exists pre,
    events (trace (snd (install_host
                          (scripted ["h1"] "hd" (never_clears "old") (Ok tt) 0)
                          5 (session PNone) h1 (PStr "new") (Some 100%Q)
                          world0)))
      = events (trace world0) ++ pre
        ++ [HostRecord "END FAIL" PNone "install" "Host h1 install timed out"].
Proof.
  apply (timeout_is_recorded
           (scripted ["h1"] "hd" (never_clears "old") (Ok tt) 0)
           5 (session PNone) h1 (PStr "new") (Some 100%Q) "secret-token"
           world0).
  - reflexivity.
  - reflexivity.
  - intros m. apply scripted_raises_nothing.
  - vm_compute. reflexivity.
Defined.

(** ** No target profile *)



(** ** Runs with a cooperative server *)

Section Cooperative.

Variable env : Env.
Variable self : CobblerInterface.
Variable host : Host.
Variables tok system handle : string.
Variable isfile : bool.
Variable infos : nat -> gmap string pyval.
Variable sync : Reply unit.
Hypothesis Hurl : truthy (xmlrpc_url self) = true.
Hypothesis Htok : token self = Some tok.
Hypothesis Hcoop : cooperative env host tok system handle isfile infos sync.

Lemma bind_run {A B} (m : Py A) (k : A -> Py B) w a w' :
  m w = (Ret a, w') -> bind m k w = k a w'.
Proof. intros H. unfold bind. rewrite H. reflexivity. Qed.

Lemma remove_hosts_file_run w :
  exists w' l,
    remove_hosts_file env w = (Ret tt, w') /\
    trace w' = trace w ++ l /\
    events l = remove_hosts_events env isfile.
Proof.
  unfold remove_hosts_file, remove_hosts_events.
  pose proof (coop_isfile _ _ _ _ _ _ _ _ Hcoop) as Hisfile.
  pose proof (coop_remove _ _ _ _ _ _ _ _ Hcoop) as Hremove.
  clear Hcoop. destruct isfile.
  - eexists. eexists. split; [|split].
    + erewrite bind_ask_ok; [|rewrite Hisfile; reflexivity].
      unfold logging_debug. rewrite bind_perform.
      unfold ask. rewrite Hremove. reflexivity.
    + rewrite !trace_advance, <- !List.app_assoc. reflexivity.
    + reflexivity.
  - eexists. eexists. split; [|split].
    + erewrite bind_ask_ok; [|rewrite Hisfile; reflexivity]. reflexivity.
    + rewrite !trace_advance. reflexivity.
    + reflexivity.
Qed.

Lemma get_system_handle_run w :
  exists w' l,
    get_system_handle env self host w = (Ret (system, handle), w') /\
    trace w' = trace w ++ l /\
    events l
      = [Rpc (rpc_find_system {[ "name" := PStr (hostname host) ]});
         Rpc (rpc_get_system_handle system tok)].
Proof.
  destruct (coop_find _ _ _ _ _ _ _ _ Hcoop (trace w)) as [others Hfind].
  eexists. eexists. split; [|split].
  - unfold get_system_handle, bind at 1, try_except.
    rewrite (self_attr_some _ _ _ Htok), bind_ret.
    unfold server_find_system.
    rewrite (bind_ask_ok env _ _ _ _ _ Hfind).
    cbn [ret]. rewrite !(self_attr_some _ _ _ Htok), !bind_ret.
    unfold server_get_system_handle.
    erewrite bind_ask_ok; [|apply (coop_handle _ _ _ _ _ _ _ _ Hcoop)].
    reflexivity.
  - rewrite !trace_advance, <- !List.app_assoc. reflexivity.
  - reflexivity.
Qed.

Lemma sync_dhcp_block_run w :
  exists w' l,
    sync_dhcp_block env self w = (Ret tt, w') /\
    trace w' = trace w ++ l /\
    events l = [Rpc (rpc_sync_dhcp tok)] ++ sync_log_events sync.
Proof.
  pose proof (coop_sync _ _ _ _ _ _ _ _ Hcoop (trace w)) as Hsync.
  pose proof (coop_sync_fault _ _ _ _ _ _ _ _ Hcoop) as Hfault.
  clear Hcoop.
  unfold sync_dhcp_block, try_except.
  rewrite !(self_attr_some _ _ _ Htok), !bind_ret.
  unfold server_sync_dhcp, server_ack, ask. rewrite Hsync.
  destruct sync as [[]|e].
  - eexists. eexists. split; [reflexivity|].
    rewrite trace_advance. split; reflexivity.
  - destruct e; try discriminate. cbn [is_fault sync_log_events].
    destruct (contains "unknown remote method" faultString); cbn [negb].
    + eexists. eexists. split; [reflexivity|].
      rewrite trace_advance. split; reflexivity.
    + eexists. eexists. split; [reflexivity|].
      unfold logging_error, perform, ask. cbn [fst snd].
      rewrite !trace_advance, <- !List.app_assoc. split; reflexivity.
Qed.

Lemma count_remove_hosts_events p :
  (forall path, p (OsPathIsfile path) = false) ->
  (forall path, p (OsRemove path) = false) ->
  (forall fmt args, p (Log DEBUG fmt args) = false) ->
  count p (remove_hosts_events env isfile) = 0%nat.
Proof.
  intros H1 H2 H3. unfold remove_hosts_events.
  clear Hcoop. destruct isfile; rewrite !count_cons, ?H1, ?H2, ?H3;
    reflexivity.
Qed.

Lemma install_host_prelude fuel profile timeout w :
  exists w1 pre,
    trace w1 = trace w ++ pre /\
    events pre
      = prelude_events env host tok system handle isfile
          (target_profile self profile)
          (dict_get (infos (count is_get_system (events (trace w))))
             "profile")
          sync (effective_timeout timeout) /\
    install_host env fuel self host profile timeout w
      = await_install env fuel self host system (effective_timeout timeout)
          w1.
Proof.
  set (current := dict_get (infos (count is_get_system (events (trace w))))
                    "profile").
  set (target := target_profile self profile).
  unfold install_host. rewrite Hurl.
  fold (target_profile self profile). fold target.
  fold (effective_timeout timeout).
  unfold logging_info at 1. rewrite bind_perform.
  match goal with |- context [bind (remove_hosts_file env) _ ?w0] =>
    destruct (remove_hosts_file_run w0) as [w1 [l1 [Hrun1 [Htr1 Hev1]]]] end.
  rewrite (bind_run _ _ _ _ _ Hrun1).
  destruct (get_system_handle_run w1) as [w2 [l2 [Hrun2 [Htr2 Hev2]]]].
  rewrite (bind_run _ _ _ _ _ Hrun2).
  rewrite ?(self_attr_some _ _ _ Htok), ?bind_ret.
  unfold server_get_system at 1.
  erewrite bind_ask_ok; [|apply (coop_status _ _ _ _ _ _ _ _ Hcoop)].
  assert (Hcount : count is_get_system (events (trace w2))
                   = count is_get_system (events (trace w))).
  { rewrite Htr2, Htr1, trace_advance, !events_app, !count_app, Hev2, Hev1.
    rewrite count_remove_hosts_events by reflexivity.
    cbn. lia. }
  rewrite Hcount. fold current.
  match goal with
  | |- context [bind (if ?c then ?a else ?b) _ ?w0] =>
      assert (Hprofile : exists w3 l3,
        (if c then a else b) w0
          = (Ret (effective_profile target current), w3) /\
        trace w3 = trace w0 ++ l3 /\
        events l3 = set_profile_events handle tok target current)
  end.
  { unfold effective_profile, set_profile_events.
    destruct (truthy target && negb (py_eqb target current)).
    - eexists. eexists. split; [|split].
      + rewrite ?(self_attr_some _ _ _ Htok), ?bind_ret.
        unfold server_modify_system, server_ack.
        erewrite bind_ask_ok;
          [|apply (coop_ack _ _ _ _ _ _ _ _ Hcoop); reflexivity].
        reflexivity.
      + rewrite trace_advance. reflexivity.
      + reflexivity.
    - exists (advance env (Rpc (rpc_get_system system)) w2), [].
      split; [reflexivity|]. split; [|reflexivity].
      symmetry. apply List.app_nil_r. }
  destruct Hprofile as [w3 [l3 [Hrun3 [Htr3 Hev3]]]].
  rewrite (bind_run _ _ _ _ _ Hrun3).
  rewrite ?(self_attr_some _ _ _ Htok), ?bind_ret.
  unfold server_modify_system at 1, server_ack.
  erewrite bind_ask_ok;
    [|apply (coop_ack _ _ _ _ _ _ _ _ Hcoop); reflexivity].
  match goal with |- context [bind (sync_dhcp_block env self) _ ?w0] =>
    destruct (sync_dhcp_block_run w0) as [w4 [l4 [Hrun4 [Htr4 Hev4]]]] end.
  rewrite (bind_run _ _ _ _ _ Hrun4).
  rewrite ?(self_attr_some _ _ _ Htok), ?bind_ret.
  unfold server_save_system, server_power_system, server_ack.
  eexists. eexists. split; [|split]; cycle 2.
  { erewrite bind_ask_ok;
      [|apply (coop_ack _ _ _ _ _ _ _ _ Hcoop); reflexivity].
    rewrite !bind_ret.
    erewrite bind_ask_ok;
      [|apply (coop_ack _ _ _ _ _ _ _ _ Hcoop); reflexivity].
    unfold host_record, logging_info. rewrite !bind_perform.
    reflexivity. }
  - rewrite !trace_advance, Htr4, !trace_advance, Htr3, !trace_advance,
      Htr2, Htr1, !trace_advance.
    rewrite <- !List.app_assoc. reflexivity.
  - rewrite !events_app, Hev4, Hev3, Hev2, Hev1.
    unfold prelude_events. cbn [events map snd].
    repeat (rewrite <- List.app_assoc; cbn [List.app]). reflexivity.
Qed.

(** With a cooperative server the end of [install_host] only polls,
    waits and records, and can only fail by timing out. *)
Lemma await_install_runs fuel timeout w :
  wp (await_install env fuel self host system timeout)
     (fun r w' =>
        emitted w (fun e => is_await_event e = true) w' /\
        forall e, r = Raise e ->
          e = HostInstallTimeoutError (timed_out_message host)) w.
Proof.
  unfold await_install.
  apply wp_bind, wp_time_time.
  apply wp_bind.
  eapply wp_conseq;
    [apply (wp_poll_loop env self tok Htok w
              (fun e => is_await_event e = true));
     try reflexivity;
     apply emitted_advance; [apply emitted_refl|reflexivity] |].
  intros [st| x |] w1 [Hw1 Hexn].
  - destruct (negb (install_successful st)).
    + apply wp_bind, wp_perform, wp_raise. split.
      * apply emitted_advance; auto.
      * intros e [= <-]. reflexivity.
    + apply wp_bind, wp_ask.
      * intros [] _. apply wp_bind, wp_perform.
        apply wp_bind, wp_time_time. apply wp_perform.
        split; [|discriminate].
        repeat (apply emitted_advance; [|reflexivity]). exact Hw1.
      * intros x Hx.
        rewrite (coop_restart _ _ _ _ _ _ _ _ Hcoop) in Hx. discriminate.
  - destruct (Hexn x eq_refl) as [h Hh].
    rewrite (coop_status _ _ _ _ _ _ _ _ Hcoop) in Hh. discriminate.
  - split; [exact Hw1|discriminate].
Qed.

(** A cooperative run: the prelude, then events of the polling phase. *)
Lemma install_host_cooperative fuel profile timeout w :
  exists post,
    events (trace (snd (install_host env fuel self host profile timeout w)))
      = events (trace w)
        ++ prelude_events env host tok system handle isfile
             (target_profile self profile)
             (dict_get (infos (count is_get_system (events (trace w))))
                "profile")
             sync (effective_timeout timeout)
        ++ post /\
    Forall (fun e => is_await_event e = true) post /\
    forall e,
      fst (install_host env fuel self host profile timeout w) = Raise e ->
      e = HostInstallTimeoutError (timed_out_message host).
Proof.
  destruct (install_host_prelude fuel profile timeout w)
    as [w1 [pre [Htr [Hev Hrun]]]].
  rewrite Hrun.
  destruct (await_install_runs fuel (effective_timeout timeout) w1)
    as [[l [Hl Hp]] Hexn].
  exists (events l). split; [|split; assumption].
  rewrite Hl, Htr, !events_app, Hev, <- List.app_assoc. reflexivity.
Qed.

End Cooperative.

Lemma scripted_cooperative system others handle infos sync lat host tok :
  match sync with Ok _ => True | Err e => is_fault e = true end ->
  cooperative (scripted (system :: others) handle infos sync lat)
    host tok system handle false infos sync.
Proof.
  intros Hsync. constructor; cbn; auto.
  - intros h. exists others. reflexivity.
  - intros h [] Hc; try reflexivity. discriminate.
Qed.

Lemma count_zero_of_Forall p q l :
  (forall e, q e = true -> p e = false) ->
  Forall (fun e => q e = true) l -> count p l = 0%nat.
Proof.
  intros Hpq Hl. induction Hl as [|e l He _ IH]; [reflexivity|].
  rewrite count_cons, (Hpq e He), IH. reflexivity.
Qed.

(** ** Faults of the DHCP synchronisation *)

(** C6. When [sync_dhcp] raises [Fault code str], the [try] statement
    around it ends normally, whatever else the server does: when [str]
    contains "unknown remote method" nothing is logged, otherwise one error
    is logged, with the fault code and string. With a server that
    cooperates otherwise, the next calls of [install_host] are then
    [save_system] and [power_system(handle, "reboot")], no further error is
    logged, and [install_host] does not end in a [Fault]. *)
Theorem dhcp_sync_fault_is_absorbed env self host tok system handle isfile
    infos code str fuel profile timeout w :
  truthy (xmlrpc_url self) = true ->
  token self = Some tok ->
  (forall w0,
     env_ack env (trace w0) (rpc_sync_dhcp tok) = Err (Fault code str) ->
     exists w1,
       sync_dhcp_block env self w0 = (Ret tt, w1) /\
       events (trace w1)
         = events (trace w0)
           ++ [Rpc (rpc_sync_dhcp tok)]
           ++ (if contains "unknown remote method" str then []
               else [Log ERROR
                       "DHCP sync failed, error code: %s, error string: %s"
                       [PInt code; PStr str]])) /\
  (cooperative env host tok system handle isfile infos
     (Err (Fault code str)) ->
   (exists pre post,
     events (trace (snd (install_host env fuel self host profile timeout w)))
       = events (trace w) ++ pre
         ++ [Rpc (rpc_sync_dhcp tok)]
         ++ (if contains "unknown remote method" str then []
             else [Log ERROR
                     "DHCP sync failed, error code: %s, error string: %s"
                     [PInt code; PStr str]])
         ++ [Rpc (rpc_save_system handle tok);
             Rpc (rpc_power_system handle "reboot" tok)]
         ++ post /\
     count is_error_log pre = 0%nat /\
     count is_error_log post = 0%nat) /\
   forall c s,
     fst (install_host env fuel self host profile timeout w)
       <> Raise (Fault c s)).
Proof.
  intros Hurl Htok. split.
  { intros w0 Hsync. unfold sync_dhcp_block, try_except.
    rewrite !(self_attr_some _ _ _ Htok), !bind_ret.
    unfold server_sync_dhcp, server_ack, ask. rewrite Hsync.
    cbn [is_fault].
    destruct (contains "unknown remote method" str); cbn [negb].
    - eexists. split; [reflexivity|].
      rewrite trace_advance, events_app. reflexivity.
    - eexists. split; [reflexivity|].
      unfold logging_error, perform, ask. cbn [fst snd].
      rewrite !trace_advance, !events_app, <- List.app_assoc. reflexivity. }
  intros Hcoop.
  destruct (install_host_cooperative env self host tok system handle isfile
              infos _ Hurl Htok Hcoop fuel profile timeout w)
    as [post [Hev [Hpost Hexn]]].
  split.
  - exists ([Log INFO "Setting up machine %s install" [PStr (hostname host)]]
            ++ remove_hosts_events env isfile
            ++ [Rpc (rpc_find_system {[ "name" := PStr (hostname host) ]});
                Rpc (rpc_get_system_handle system tok);
                Rpc (rpc_get_system system)]
            ++ set_profile_events handle tok (target_profile self profile)
                 (dict_get (infos (count is_get_system (events (trace w))))
                    "profile")
            ++ [Rpc (rpc_modify_system handle "netboot_enabled"
                       (PStr "True") tok)]).
    exists ([HostRecord "START" PNone "install" (hostname host);
             HostRecord "GOOD" PNone "install.start" (hostname host);
             Log INFO "Installing machine %s with profile %s (timeout %s s)"
               [PStr (hostname host);
                effective_profile (target_profile self profile)
                  (dict_get (infos (count is_get_system (events (trace w))))
                     "profile");
                PFloat (effective_timeout timeout)]] ++ post).
    split; [|split].
    + rewrite Hev. unfold prelude_events, sync_log_events.
      destruct (contains "unknown remote method" str);
        repeat (rewrite <- List.app_assoc; cbn [List.app]); reflexivity.
    + rewrite !count_app.
      rewrite (count_remove_hosts_events env isfile) by reflexivity.
      unfold set_profile_events.
      destruct (truthy _ && negb _); reflexivity.
    + rewrite count_app.
      rewrite (count_zero_of_Forall is_error_log is_await_event post); auto.
      intros [[]| | | | |[]| |]; try discriminate; reflexivity.
  - intros c s H. specialize (Hexn _ H). discriminate.
Qed.

Lemma dhcp_sync_fault_is_absorbed_witness :
  exists pre post,
    events (trace (snd (install_host
                          (scripted ["h1"] "hd" (clears_at 2 "old")
                             (Err (Fault 1 "unknown remote method sync_dhcp"))
                             0)
                          5 (session PNone) h1 (PStr "new") (Some 120%Q)
                          world0)))
      = pre
        ++ [Rpc (rpc_sync_dhcp "secret-token");
            Rpc (rpc_save_system "hd" "secret-token");
            Rpc (rpc_power_system "hd" "reboot" "secret-token")]
        ++ post.
Proof.
  destruct (dhcp_sync_fault_is_absorbed
              (scripted ["h1"] "hd" (clears_at 2 "old")
                 (Err (Fault 1 "unknown remote method sync_dhcp")) 0)
              (session PNone) h1 "secret-token" "h1" "hd" false
              (clears_at 2 "old") 1%Z "unknown remote method sync_dhcp"
              5 (PStr "new") (Some 120%Q) world0 eq_refl eq_refl)
    as [_ Hrun].
  destruct Hrun as [[pre [post [Hev _]]] _].
  - apply scripted_cooperative. reflexivity.
  - exists pre, post. exact Hev.
Defined.

(** ** Setting the profile *)

(** C4 (as the code has it). With a cooperative server, where [target] is
    the profile asked for (the argument, or the fallback profile) and
    [current] the profile that the server reports: when [target] is empty
    or equals [current], [install_host] makes no [modify_system] call on
    "profile"; when [target] is non-empty and differs from [current], it
    makes exactly one, with [target], directly before the call that sets
    "netboot_enabled", and these two are its only [modify_system] calls. *)
Theorem profile_is_set_when_it_differs env self host tok system handle isfile
    infos sync fuel profile timeout w :
  truthy (xmlrpc_url self) = true ->
  token self = Some tok ->
  cooperative env host tok system handle isfile infos sync ->
  exists new,
    events (trace (snd (install_host env fuel self host profile timeout w)))
      = events (trace w) ++ new /\
    (truthy (target_profile self profile) = false \/
     py_eqb (target_profile self profile)
       (dict_get (infos (count is_get_system (events (trace w)))) "profile")
     = true ->
     count (is_modify "profile") new = 0%nat) /\
    (truthy (target_profile self profile) = true ->
     py_eqb (target_profile self profile)
       (dict_get (infos (count is_get_system (events (trace w)))) "profile")
     = false ->
     exists pre post,
       new = pre
             ++ [Rpc (rpc_modify_system handle "profile"
                        (target_profile self profile) tok);
                 Rpc (rpc_modify_system handle "netboot_enabled"
                        (PStr "True") tok)]
             ++ post /\
       count is_modify_system pre = 0%nat /\
       count is_modify_system post = 0%nat).
Proof.
  intros Hurl Htok Hcoop.
  destruct (install_host_cooperative env self host tok system handle isfile
              infos _ Hurl Htok Hcoop fuel profile timeout w)
    as [post [Hev [Hpost _]]].
  set (target := target_profile self profile) in *.
  set (current := dict_get (infos (count is_get_system (events (trace w))))
                    "profile") in *.
  assert (Hpost0 : forall p, (forall e, is_await_event e = true -> p e = false) ->
                     count p post = 0%nat).
  { intros p Hp. apply (count_zero_of_Forall p is_await_event); auto. }
  assert (Hmod : count is_modify_system post = 0%nat).
  { apply Hpost0. intros [[]| | | | |[]| |]; try discriminate; reflexivity. }
  assert (Hmodp : count (is_modify "profile") post = 0%nat).
  { apply Hpost0. intros [[]| | | | |[]| |]; try discriminate; reflexivity. }
  eexists. split; [exact Hev|]. split.
  - intros Hcond. unfold prelude_events, set_profile_events.
    assert (Hc : truthy target && negb (py_eqb target current) = false).
    { destruct Hcond as [-> | ->]; [reflexivity|].
      apply andb_false_r. }
    rewrite Hc, !count_app, Hmodp.
    rewrite (count_remove_hosts_events env isfile) by reflexivity.
    destruct (sync_log_events sync) as [|e l] eqn:Hs; [reflexivity|].
    unfold sync_log_events in Hs.
    destruct sync as [|[]]; try discriminate.
    destruct (contains _ _); [discriminate|].
    injection Hs as <- <-. reflexivity.
  - intros Ht Hne. unfold prelude_events, set_profile_events.
    rewrite Ht, Hne. cbn [negb andb].
    exists ([Log INFO "Setting up machine %s install" [PStr (hostname host)]]
            ++ remove_hosts_events env isfile
            ++ [Rpc (rpc_find_system {[ "name" := PStr (hostname host) ]});
                Rpc (rpc_get_system_handle system tok);
                Rpc (rpc_get_system system)]).
    exists ([Rpc (rpc_sync_dhcp tok)] ++ sync_log_events sync
            ++ [Rpc (rpc_save_system handle tok);
                Rpc (rpc_power_system handle "reboot" tok);
                HostRecord "START" PNone "install" (hostname host);
                HostRecord "GOOD" PNone "install.start" (hostname host);
                Log INFO "Installing machine %s with profile %s (timeout %s s)"
                  [PStr (hostname host); effective_profile target current;
                   PFloat (effective_timeout timeout)]]
            ++ post).
    split; [|split].
    + repeat (rewrite <- List.app_assoc; cbn [List.app]). reflexivity.
    + rewrite !count_app.
      rewrite (count_remove_hosts_events env isfile) by reflexivity.
      reflexivity.
    + rewrite !count_app, Hmod.
      destruct (sync_log_events sync) as [|e l] eqn:Hs; [reflexivity|].
      unfold sync_log_events in Hs.
      destruct sync as [|[]]; try discriminate.
      destruct (contains _ _); [discriminate|].
      injection Hs as <- <-. reflexivity.
Qed.

(** C4, refuted as stated: with no profile argument and an empty fallback
    profile the target (the empty string) differs from the current profile
    "old", and yet no [modify_system] call on "profile" is made. *)
Lemma empty_target_differs_but_is_not_set :
  py_eqb (target_profile (session (PStr "")) PNone) (PStr "old") = false /\
  dict_get (clears_at 1 "old" 0) "profile" = PStr "old" /\
  fst (install_host (scripted ["h1"] "hd" (clears_at 1 "old") (Ok tt) 0)
         5 (session (PStr "")) h1 PNone (Some 120%Q) world0) = Ret tt /\
  count (is_modify "profile")
    (events (trace (snd (install_host
                           (scripted ["h1"] "hd" (clears_at 1 "old") (Ok tt) 0)
                           5 (session (PStr "")) h1 PNone (Some 120%Q)
                           world0)))) = 0%nat.
Proof. vm_compute. repeat split. Qed.

Lemma profile_is_set_when_it_differs_witness :
  exists new,
    events (trace (snd (install_host
                          (scripted ["h1"] "hd" (clears_at 2 "old") (Ok tt) 0)
                          5 (session PNone) h1 (PStr "new") (Some 120%Q)
                          world0)))
      = events (trace world0) ++ new /\
    exists pre post,
      new = pre
            ++ [Rpc (rpc_modify_system "hd" "profile" (PStr "new")
                       "secret-token");
                Rpc (rpc_modify_system "hd" "netboot_enabled" (PStr "True")
                       "secret-token")]
            ++ post /\
      count is_modify_system pre = 0%nat /\
      count is_modify_system post = 0%nat.
Proof.
  destruct (profile_is_set_when_it_differs
              (scripted ["h1"] "hd" (clears_at 2 "old") (Ok tt) 0)
              (session PNone) h1 "secret-token" "h1" "hd" false
              (clears_at 2 "old") (Ok tt) 5 (PStr "new") (Some 120%Q) world0
              eq_refl eq_refl
              (scripted_cooperative "h1" [] "hd" (clears_at 2 "old") (Ok tt)
                 0 h1 "secret-token" I))
    as [new [Hev [_ Hdiff]]].
  exists new. split; [exact Hev|].
  apply Hdiff; vm_compute; reflexivity.
Defined.

(** ** The polling loop *)

Lemma Qnat_S n : (Qnat (S n) == Qnat n + 1)%Q.
Proof.
  unfold Qnat. rewrite Nat2Z.inj_succ, <- Z.add_1_r, inject_Z_plus.
  reflexivity.
Qed.



Section Polling.

Variable env : Env.
Variable self : CobblerInterface.
Variable host : Host.
Variables tok system handle : string.
Variable isfile : bool.
Variable infos : nat -> gmap string pyval.
Variable sync : Reply unit.
Hypothesis Htok : token self = Some tok.
Hypothesis Hcoop : cooperative env host tok system handle isfile infos sync.

Variables install_start timeout : Q.






End Polling.

(** ** Timing out *)

Section Awaiting.

Variable env : Env.
Variable self : CobblerInterface.
Variable host : Host.
Variables tok system handle : string.
Variable isfile : bool.
Variable infos : nat -> gmap string pyval.
Variable sync : Reply unit.
Hypothesis Htok : token self = Some tok.
Hypothesis Hcoop : cooperative env host tok system handle isfile infos sync.



End Awaiting.




(** ** Polling until the flag clears *)

Lemma count_poll_cycles_sleep m system :
  count is_sleep (poll_cycles m system) = m.
Proof.
  induction m as [|m IH]; [reflexivity|].
  cbn [poll_cycles]. rewrite count_app, IH. reflexivity.
Qed.

Lemma count_poll_cycles_get_system m system :
  count is_get_system (poll_cycles m system) = m.
Proof.
  induction m as [|m IH]; [reflexivity|].
  cbn [poll_cycles]. rewrite count_app, IH. reflexivity.
Qed.






(** ** A flag that clears after the time-out *)



(** ** Construction, and a complete run *)


(** Host [h1] with current profile "old", target profile "new", a time-out
    of 120 s and a flag that clears at the second poll: the calls, in
    order. *)
Example end_to_end_scenario :
  let run := install_host (scripted ["h1"] "hd" (clears_at 2 "old") (Ok tt) 0)
               5 (session PNone) h1 (PStr "new") (Some 120%Q) world0 in
  fst run = Ret tt /\
  List.filter (fun e => negb (is_await_event e) || is_get_system e
                        || is_sleep e || is_host_record e
                        || match e with WaitForRestart => true | _ => false end)
    (events (trace (snd run)))
  = [OsPathIsfile "/root/.ssh/known_hosts";
     Rpc (rpc_find_system {[ "name" := PStr "h1" ]});
     Rpc (rpc_get_system_handle "h1" "secret-token");
     Rpc (rpc_get_system "h1");
     Rpc (rpc_modify_system "hd" "profile" (PStr "new") "secret-token");
     Rpc (rpc_modify_system "hd" "netboot_enabled" (PStr "True")
            "secret-token");
     Rpc (rpc_sync_dhcp "secret-token");
     Rpc (rpc_save_system "hd" "secret-token");
     Rpc (rpc_power_system "hd" "reboot" "secret-token");
     HostRecord "START" PNone "install" "h1";
     HostRecord "GOOD" PNone "install.start" "h1";
     Sleep 60; Rpc (rpc_get_system "h1");
     Sleep 60; Rpc (rpc_get_system "h1");
     WaitForRestart;
     HostRecord "END GOOD" PNone "install" "h1"].
Proof. vm_compute. split; reflexivity. Qed.

(** * Further properties of the client *)

(** ** The substring test *)

Lemma prefix_spec (a b : string) :
  String.prefix a b = true <-> exists post, b = a +:+ post.
Proof.
  revert b. induction a as [|c a IH]; intros b.
  - split; [exists b; reflexivity | destruct b; reflexivity].
  - destruct b as [|d b]; cbn [String.prefix].
    + split; [discriminate | intros [post H]; discriminate].
    + destruct (Ascii.ascii_dec c d) as [->|Hne].
      * rewrite IH. split.
        -- intros [post ->]. exists post. reflexivity.
        -- intros [post [= ->]]. exists post. reflexivity.
      * split; [discriminate|]. intros [post [= Hcd _]]. congruence.
Qed.

(** X1. The test [needle in hay] that decides whether a DHCP fault is
    logged holds exactly when [needle] occurs somewhere in [hay]. *)
Theorem contains_spec (needle hay : string) :
  contains needle hay = true <->
  exists pre post, hay = pre +:+ needle +:+ post.
Proof.
  induction hay as [|c hay IH]; cbn [contains].
  - rewrite orb_false_r, prefix_spec. split.
    + intros [post H]. exists "", post. exact H.
    + intros [[|d pre] [post H]]; [exists post; exact H | discriminate].
  - rewrite orb_true_iff, prefix_spec, IH. split.
    + intros [[post H]|[pre [post ->]]].
      * exists "", post. exact H.
      * exists (String c pre), post. reflexivity.
    + intros [[|d pre] [post H]].
      * left. exists post. exact H.
      * right. injection H as _ H. exists pre, post. exact H.
Qed.

(** ** Resolving a host *)

(** X2. When several systems match the host name, [get_system_handle]
    takes the first and asks for its handle with the token of the session;
    it returns that pair after exactly these two calls. *)
Theorem get_system_handle_takes_first_match env self host tok system others
    hd w :
  token self = Some tok ->
  env_find_system env (trace w) {[ "name" := PStr (hostname host) ]}
    = Ok (system :: others) ->
  env_get_system_handle env
    (trace (advance env
              (Rpc (rpc_find_system {[ "name" := PStr (hostname host) ]})) w))
    system tok = Ok hd ->
  exists w',
    get_system_handle env self host w = (Ret (system, hd), w') /\
    events (trace w')
      = events (trace w)
        ++ [Rpc (rpc_find_system {[ "name" := PStr (hostname host) ]});
            Rpc (rpc_get_system_handle system tok)].
Proof.
  intros Htok Hfind Hhandle.
  eexists. split.
  - unfold get_system_handle, bind at 1, try_except.
    rewrite (self_attr_some _ _ _ Htok), bind_ret.
    unfold server_find_system.
    rewrite (bind_ask_ok env _ _ _ _ _ Hfind).
    cbn [ret]. rewrite !(self_attr_some _ _ _ Htok), !bind_ret.
    unfold server_get_system_handle.
    rewrite (bind_ask_ok env _ _ _ _ _ Hhandle). reflexivity.
  - rewrite !trace_advance, !events_app, <- List.app_assoc. reflexivity.
Qed.

Lemma get_system_handle_takes_first_match_witness :
  exists w',
    get_system_handle (scripted ["h1"; "h1-old"; "h1-spare"] "hd"
                         (clears_at 2 "old") (Ok tt) 0)
      (session PNone) h1 world0 = (Ret ("h1", "hd"), w').
Proof.
  destruct (get_system_handle_takes_first_match
              (scripted ["h1"; "h1-old"; "h1-spare"] "hd"
                 (clears_at 2 "old") (Ok tt) 0)
              (session PNone) h1 "secret-token" "h1" ["h1-old"; "h1-spare"]
              "hd" world0 eq_refl eq_refl eq_refl) as [w' [H _]].
  exists w'. exact H.
Defined.

(** X3. A failure of the [find_system] call itself: an [IndexError] is
    handled like an empty result (error log, then the "not registered"
    [ValueError]); any other exception leaves [get_system_handle]
    unchanged, without a log. In both cases no handle is asked for. *)
Theorem find_system_failure env self host tok e w :
  token self = Some tok ->
  env_find_system env (trace w) {[ "name" := PStr (hostname host) ]}
    = Err e ->
  exists w',
    get_system_handle env self host w
      = (Raise (if is_index_error e
                then ValueError (not_registered_message host) else e), w') /\
    events (trace w')
      = events (trace w)
        ++ Rpc (rpc_find_system {[ "name" := PStr (hostname host) ]})
           :: (if is_index_error e
               then [Log ERROR "Error finding %s: %s"
                       [PStr (hostname host);
                        PStr (match e with IndexError d => d | _ => "" end)]]
               else []).
Proof.
  intros Htok Hfind.
  unfold get_system_handle, bind at 1, try_except.
  rewrite (self_attr_some _ _ _ Htok), bind_ret.
  unfold server_find_system.
  rewrite (bind_ask_err env _ _ _ _ _ Hfind).
  destruct (is_index_error e).
  - unfold logging_error. rewrite bind_perform. cbn [raise].
    eexists. split; [reflexivity|].
    rewrite !trace_advance, !events_app, <- List.app_assoc. reflexivity.
  - eexists. split; [reflexivity|].
    rewrite trace_advance, events_app. reflexivity.
Qed.

Lemma find_system_failure_witness :
  exists w',
    get_system_handle
      (with_find_system lab (Err (OtherError "socket.error" "timed out")))
      (session PNone) h1 world0
    = (Raise (OtherError "socket.error" "timed out"), w').
Proof.
  destruct (find_system_failure
              (with_find_system lab (Err (OtherError "socket.error" "timed out")))
              (session PNone) h1 "secret-token"
              (OtherError "socket.error" "timed out") world0
              eq_refl eq_refl) as [w' [H _]].
  exists w'. exact H.
Defined.

(** ** Powering a host *)

(** X4. For a registered host, [power_host] makes exactly three calls:
    [find_system], [get_system_handle] and one [power_system] with the
    handle, the requested state and the token. It returns when the server
    acknowledges and passes on the server's exception otherwise; it never
    sleeps, polls or records a host event. *)
Theorem power_host_powers_once env self host state tok system others hd w :
  truthy (xmlrpc_url self) = true ->
  token self = Some tok ->
  env_find_system env (trace w) {[ "name" := PStr (hostname host) ]}
    = Ok (system :: others) ->
  env_get_system_handle env
    (trace (advance env
              (Rpc (rpc_find_system {[ "name" := PStr (hostname host) ]})) w))
    system tok = Ok hd ->
  exists w1 w',
    events (trace w1)
      = events (trace w)
        ++ [Rpc (rpc_find_system {[ "name" := PStr (hostname host) ]});
            Rpc (rpc_get_system_handle system tok)] /\
    power_host env self host state w
      = (reply_outcome
           (env_ack env (trace w1) (rpc_power_system hd state tok)), w') /\
    events (trace w')
      = events (trace w1) ++ [Rpc (rpc_power_system hd state tok)].
Proof.
  intros Hurl Htok Hfind Hhandle.
  destruct (get_system_handle_takes_first_match env self host tok system
              others hd w Htok Hfind Hhandle) as [w1 [Hrun Hev]].
  exists w1. eexists. split; [exact Hev|].
  unfold power_host. rewrite Hurl.
  unfold bind at 1. rewrite Hrun. cbn [snd].
  rewrite !(self_attr_some _ _ _ Htok), !bind_ret.
  unfold server_power_system, server_ack, ask.
  destruct (env_ack env (trace w1) (rpc_power_system hd state tok)) as [[]|e];
    cbn [reply_outcome]; (split; [reflexivity|]);
    rewrite trace_advance, events_app; reflexivity.
Qed.

Lemma power_host_powers_once_witness :
  exists w',
    power_host (with_power_system lab (Err (Fault 1 "power management failed")))
      (session PNone) h1 "off" world0
    = (Raise (Fault 1 "power management failed"), w') /\
    events (trace w')
      = [Rpc (rpc_find_system {[ "name" := PStr "h1" ]});
         Rpc (rpc_get_system_handle "h1" "secret-token");
         Rpc (rpc_power_system "hd" "off" "secret-token")].
Proof.
  destruct (power_host_powers_once
              (with_power_system lab (Err (Fault 1 "power management failed")))
              (session PNone) h1 "off" "secret-token" "h1" [] "hd" world0
              eq_refl eq_refl eq_refl eq_refl)
    as [w1 [w' [Hev1 [Hrun Hev]]]].
  exists w'. split; [exact Hrun|].
  rewrite Hev, Hev1. reflexivity.
Defined.

(** ** Construction *)


(** ** The known-hosts file *)

(** X6. [remove_hosts_file] first tests the path "$HOME/.ssh/known_hosts"
    (with [HOME] unset: the relative path "None/.ssh/known_hosts"). It
    calls [os.remove], on that same path and after a debug log, exactly
    when the test says that the file exists, and it raises only what
    [os.remove] raises. *)
Theorem remove_hosts_file_only_removes_existing env w :
  (env_home env = None -> known_hosts_path env = "None/.ssh/known_hosts") /\
  exists new,
    trace (snd (remove_hosts_file env w)) = trace w ++ new /\
    events new
      = OsPathIsfile (known_hosts_path env)
        :: (if env_isfile env (trace w) (known_hosts_path env)
            then [Log DEBUG "Deleting known hosts file %s"
                    [PStr (known_hosts_path env)];
                  OsRemove (known_hosts_path env)]
            else []) /\
    count is_os_remove (events new)
      = (if env_isfile env (trace w) (known_hosts_path env) then 1 else 0)%nat /\
    fst (remove_hosts_file env w) <> OutOfFuel /\
    forall e,
      fst (remove_hosts_file env w) = Raise e ->
      env_isfile env (trace w) (known_hosts_path env) = true /\
      exists h, env_remove env h (known_hosts_path env) = Err e.
Proof.
  split.
  { intros Hhome. unfold known_hosts_path. rewrite Hhome. reflexivity. }
  unfold remove_hosts_file.
  erewrite bind_ask_ok by reflexivity.
  destruct (env_isfile env (trace w) (known_hosts_path env)).
  - unfold logging_debug. rewrite bind_perform. unfold ask.
    match goal with |- context [env_remove env ?h ?p] =>
      destruct (env_remove env h p) as [[]|x] eqn:Hremove end; cbn [fst snd].
    + eexists. split; [rewrite !trace_advance, <- !List.app_assoc; reflexivity|].
      split; [reflexivity|]. split; [reflexivity|].
      split; discriminate.
    + eexists. split; [rewrite !trace_advance, <- !List.app_assoc; reflexivity|].
      split; [reflexivity|]. split; [reflexivity|].
      split; [discriminate|].
      intros e [= <-]. eauto.
  - cbn [ret fst snd]. eexists.
    split; [rewrite trace_advance; reflexivity|].
    split; [reflexivity|]. split; [reflexivity|].
    split; discriminate.
Qed.

(** X7. When the known-hosts file exists and cannot be removed,
    [install_host] stops there with the exception of [os.remove]: it has
    made no remote call. *)
Theorem remove_failure_aborts_install env fuel self host profile timeout e w :
  truthy (xmlrpc_url self) = true ->
  (forall h p, env_isfile env h p = true) ->
  (forall h p, env_remove env h p = Err e) ->
  exists w',
    install_host env fuel self host profile timeout w = (Raise e, w') /\
    events (trace w')
      = events (trace w)
        ++ [Log INFO "Setting up machine %s install" [PStr (hostname host)];
            OsPathIsfile (known_hosts_path env);
            Log DEBUG "Deleting known hosts file %s"
              [PStr (known_hosts_path env)];
            OsRemove (known_hosts_path env)] /\
    count is_rpc
      [Log INFO "Setting up machine %s install" [PStr (hostname host)];
       OsPathIsfile (known_hosts_path env);
       Log DEBUG "Deleting known hosts file %s" [PStr (known_hosts_path env)];
       OsRemove (known_hosts_path env)] = 0%nat.
Proof.
  intros Hurl Hisfile Hremove.
  unfold install_host. rewrite Hurl.
  unfold logging_info at 1. rewrite bind_perform.
  unfold remove_hosts_file. rewrite bind_assoc.
  erewrite bind_ask_ok by reflexivity. rewrite Hisfile.
  unfold logging_debug. rewrite bind_assoc, bind_perform.
  erewrite bind_ask_err by apply Hremove.
  eexists. split; [reflexivity|]. split; [|reflexivity].
  rewrite !trace_advance, !events_app, <- !List.app_assoc. reflexivity.
Qed.

Lemma remove_failure_aborts_install_witness :
  exists w',
    install_host
      (with_known_hosts lab (Err (OtherError "OSError" "Permission denied")))
      5 (session PNone) h1 (PStr "new") None world0
    = (Raise (OtherError "OSError" "Permission denied"), w').
Proof.
  destruct (remove_failure_aborts_install
              (with_known_hosts lab
                 (Err (OtherError "OSError" "Permission denied")))
              5 (session PNone) h1 (PStr "new") None
              (OtherError "OSError" "Permission denied") world0
              eq_refl (fun _ _ => eq_refl) (fun _ _ => eq_refl))
    as [w' [H _]].
  exists w'. exact H.
Defined.

(** ** The polling loop, whatever the server answers *)

Section AnyPolling.

Variable env : Env.
Variable self : CobblerInterface.
Variable tok : string.
Hypothesis Htok : token self = Some tok.
Variable system : string.
Variables install_start timeout : Q.

(** The loop is a sequence of complete cycles (sleep, query, clock read),
    possibly followed by a last sleep and query: the one that found the
    flag cleared, or that failed. *)
Lemma poll_loop_shape fuel st w r w' :
  poll_loop env fuel self system install_start timeout st w = (r, w') ->
  exists n new,
    trace w' = trace w ++ new /\
    (events new = poll_cycles n system \/
     events new = poll_cycles n system
                  ++ [Sleep step_time; Rpc (rpc_get_system system)]) /\
    (forall e, r = Raise e -> exists h, env_get_system env h system = Err e).
Proof.
  revert st w. induction fuel as [|fuel IH]; intros st w Hrun.
  - injection Hrun as <- <-. exists 0%nat, [].
    split; [symmetry; apply List.app_nil_r|].
    split; [left; reflexivity | discriminate].
  - cbn [poll_loop] in Hrun.
    destruct (Qlt_bool (time_elapsed st) timeout).
    + unfold time_sleep in Hrun. rewrite bind_perform in Hrun.
      rewrite (self_attr_some _ _ _ Htok), bind_ret in Hrun.
      unfold server_get_system in Hrun.
      destruct (env_get_system env (trace (advance env (Sleep step_time) w))
                  system) as [info|x] eqn:Hinfo.
      * rewrite (bind_ask_ok env _ _ _ _ _ Hinfo) in Hrun.
        cbv zeta in Hrun.
        destruct (negb (truthy (dict_get info "netboot_enabled"))).
        -- injection Hrun as <- <-. exists 0%nat. eexists.
           split; [rewrite !trace_advance, <- List.app_assoc; reflexivity|].
           split; [right; reflexivity | discriminate].
        -- rewrite bind_time_time in Hrun.
           destruct (IH _ _ Hrun) as [n [new [Htr [Hshape Hexn]]]].
           exists (S n).
           exists ([(now w, Sleep step_time);
                    (now (advance env (Sleep step_time) w),
                     Rpc (rpc_get_system system));
                    (now (advance env (Rpc (rpc_get_system system))
                            (advance env (Sleep step_time) w)), TimeTime)]
                   ++ new).
           split; [|split; [|exact Hexn]].
           ++ rewrite Htr, !trace_advance.
              repeat (rewrite <- List.app_assoc; cbn [List.app]). reflexivity.
           ++ rewrite events_app. cbn [poll_cycles].
              destruct Hshape as [-> | ->]; [left | right];
                rewrite <- ?List.app_assoc; reflexivity.
      * rewrite (bind_ask_err env _ _ _ _ _ Hinfo) in Hrun.
        injection Hrun as <- <-. exists 0%nat. eexists.
        split; [rewrite !trace_advance, <- List.app_assoc; reflexivity|].
        split; [right; reflexivity|].
        intros e [= <-]. eauto.
    + injection Hrun as <- <-. exists 0%nat, [].
      split; [symmetry; apply List.app_nil_r|].
      split; [left; reflexivity | discriminate].
Qed.

(** With a clock that does not run backwards the loop ends, whatever the
    server answers, within as many polls as poll intervals cover the
    time-out. *)
Lemma poll_loop_bounded :
  latency_at_least env 0 ->
  forall n fuel st w r w',
    (n < fuel)%nat ->
    (time_elapsed st <= now w - install_start)%Q ->
    (timeout <= time_elapsed st + Qnat n * 60)%Q ->
    poll_loop env fuel self system install_start timeout st w = (r, w') ->
    r <> OutOfFuel /\
    exists new,
      trace w' = trace w ++ new /\
      (count is_sleep (events new) <= n)%nat.
Proof.
  intros Hlat.
  induction n as [|n IH]; intros fuel st w r w' Hfuel Hnow Hbound Hrun;
    (destruct fuel as [|fuel]; [lia|]); cbn [poll_loop] in Hrun.
  - assert (H0 : (Qnat 0 == 0)%Q) by reflexivity.
    assert (Hle : Qlt_bool (time_elapsed st) timeout = false)
      by (apply Qlt_bool_false; lra).
    rewrite Hle in Hrun. injection Hrun as <- <-. split; [discriminate|].
    exists []. split; [symmetry; apply List.app_nil_r | cbn; lia].
  - destruct (Qlt_bool (time_elapsed st) timeout) eqn:Hlt.
    + unfold time_sleep in Hrun. rewrite bind_perform in Hrun.
      rewrite (self_attr_some _ _ _ Htok), bind_ret in Hrun.
      unfold server_get_system in Hrun.
      destruct (env_get_system env (trace (advance env (Sleep step_time) w))
                  system) as [info|x] eqn:Hinfo.
      * rewrite (bind_ask_ok env _ _ _ _ _ Hinfo) in Hrun.
        cbv zeta in Hrun.
        destruct (negb (truthy (dict_get info "netboot_enabled"))).
        -- injection Hrun as <- <-. split; [discriminate|].
           eexists. split;
             [rewrite !trace_advance, <- List.app_assoc; reflexivity|].
           cbn. lia.
        -- rewrite bind_time_time in Hrun.
           set (w1 := advance env (Sleep step_time) w) in *.
           set (w2 := advance env (Rpc (rpc_get_system system)) w1) in *.
           set (w3 := advance env TimeTime w2) in *.
           pose proof (Hlat (trace w) (Sleep step_time)) as L1.
           pose proof (Hlat (trace w1) (Rpc (rpc_get_system system))) as L2.
           pose proof (Hlat (trace w2) TimeTime) as L3.
           assert (N1 : (now w1 == now w + 60
                          + env_latency env (trace w) (Sleep step_time))%Q).
           { unfold w1. rewrite now_advance. cbn [duration].
             unfold step_time. ring. }
           assert (N2 : now w2 = (now w1 + env_latency env (trace w1)
                                    (Rpc (rpc_get_system system)))%Q)
             by reflexivity.
           assert (N3 : now w3 = (now w2
                                  + env_latency env (trace w2) TimeTime)%Q)
             by reflexivity.
           pose proof (Qnat_S n) as HS.
           destruct (IH fuel {| install_successful := false;
                                time_elapsed := now w2 - install_start |}
                       w3 r w') as [Hfin [new [Htr Hcount]]];
             [lia | cbn [time_elapsed]; rewrite N3; lra
              | cbn [time_elapsed]; rewrite N2; nra | exact Hrun |].
           split; [exact Hfin|].
           exists ([(now w, Sleep step_time);
                    (now w1, Rpc (rpc_get_system system));
                    (now w2, TimeTime)] ++ new).
           split.
           ++ rewrite Htr. unfold w3, w2, w1. rewrite !trace_advance.
              repeat (rewrite <- List.app_assoc; cbn [List.app]).
              reflexivity.
           ++ rewrite events_app, count_app. cbn. lia.
      * rewrite (bind_ask_err env _ _ _ _ _ Hinfo) in Hrun.
        injection Hrun as <- <-. split; [discriminate|].
        eexists. split;
          [rewrite !trace_advance, <- List.app_assoc; reflexivity|].
        cbn. lia.
    + injection Hrun as <- <-. split; [discriminate|].
      exists []. split; [symmetry; apply List.app_nil_r | cbn; lia].
Qed.

End AnyPolling.

(** ** Milestones *)

Lemma reached_refl w : reached w [] w.
Proof.
  exists []. split; [symmetry; apply List.app_nil_r|]. split; reflexivity.
Qed.

Lemma reached_quiet env w0 ms w e :
  reached w0 ms w -> quiet e = true -> reached w0 ms (advance env e w).
Proof.
  intros [l [Hl [Hms Hsl]]] He.
  apply andb_true_iff in He as [Hm Hs].
  apply negb_true_iff in Hm. apply negb_true_iff in Hs.
  exists (l ++ [(now w, e)]). split; [|split].
  - rewrite trace_advance, Hl. symmetry. apply List.app_assoc.
  - rewrite events_app, List.filter_app, Hms. cbn. rewrite Hm.
    apply List.app_nil_r.
  - rewrite events_app, count_app, Hsl. cbn. rewrite Hs. reflexivity.
Qed.

Lemma reached_milestone env w0 ms w e :
  reached w0 ms w -> is_milestone e = true -> is_sleep e = false ->
  reached w0 (ms ++ [e]) (advance env e w).
Proof.
  intros [l [Hl [Hms Hsl]]] Hm Hs.
  exists (l ++ [(now w, e)]). split; [|split].
  - rewrite trace_advance, Hl. symmetry. apply List.app_assoc.
  - rewrite events_app, List.filter_app, Hms. cbn. rewrite Hm. reflexivity.
  - rewrite events_app, count_app, Hsl. cbn. rewrite Hs. reflexivity.
Qed.

Lemma reached_emitted w0 ms w w' :
  reached w0 ms w -> emitted w (fun e => quiet e = true) w' ->
  reached w0 ms w'.
Proof.
  intros [l [Hl [Hms Hsl]]] [l' [Hl' Hq]].
  assert (Hf : List.filter is_milestone (events l') = []
               /\ count is_sleep (events l') = 0%nat).
  { induction Hq as [|e es He _ IH]; [split; reflexivity|].
    apply andb_true_iff in He as [Hm Hs].
    apply negb_true_iff in Hm. apply negb_true_iff in Hs.
    destruct IH as [IH1 IH2]. cbn [List.filter]. rewrite Hm, count_cons, Hs.
    split; assumption. }
  destruct Hf as [Hf1 Hf2].
  exists (l ++ l'). split; [|split].
  - rewrite Hl', Hl. symmetry. apply List.app_assoc.
  - rewrite events_app, List.filter_app, Hms, Hf1. apply List.app_nil_r.
  - rewrite events_app, count_app, Hsl, Hf2. reflexivity.
Qed.

Section QuietBlocks.

Variable env : Env.
Variable self : CobblerInterface.
Variable tok : string.
Hypothesis Htok : token self = Some tok.
Variable w0 : World.

Local Abbreviation quietly := (emitted w0 (fun e => quiet e = true)).

Lemma quietly_advance w e :
  quietly w -> quiet e = true -> quietly (advance env e w).
Proof. intros Hw He. apply emitted_advance; assumption. Qed.

Lemma remove_hosts_file_quiet w :
  quietly w ->
  wp (remove_hosts_file env)
     (fun r w' => quietly w' /\ r <> OutOfFuel) w.
Proof.
  intros Hw. unfold remove_hosts_file.
  apply wp_bind, wp_ask; [|discriminate]. intros [|] _.
  - apply wp_bind, wp_perform, wp_ask.
    + intros [] _. split; [|discriminate].
      repeat (apply quietly_advance; [|reflexivity]). exact Hw.
    + intros x _. split; [|discriminate].
      repeat (apply quietly_advance; [|reflexivity]). exact Hw.
  - apply wp_ret. split; [|discriminate].
    apply quietly_advance; [exact Hw | reflexivity].
Qed.

Lemma get_system_handle_quiet host w :
  quietly w ->
  wp (get_system_handle env self host)
     (fun r w' => quietly w' /\ r <> OutOfFuel) w.
Proof.
  intros Hw. unfold get_system_handle.
  apply wp_bind, wp_try_except.
  apply wp_bind, (wp_self_attr _ _ tok _ _ Htok).
  apply wp_bind, wp_ask.
  - intros [|system others] _.
    + apply wp_raise. cbn [is_index_error].
      apply wp_bind, wp_perform, wp_raise. split; [|discriminate].
      repeat (apply quietly_advance; [|reflexivity]). exact Hw.
    + apply wp_ret.
      apply wp_bind, (wp_self_attr _ _ tok _ _ Htok).
      apply wp_bind, (wp_self_attr _ _ tok _ _ Htok).
      apply wp_bind, wp_ask.
      * intros hd _. apply wp_ret. split; [|discriminate].
        repeat (apply quietly_advance; [|reflexivity]). exact Hw.
      * intros x _. split; [|discriminate].
        repeat (apply quietly_advance; [|reflexivity]). exact Hw.
  - intros x _. destruct (is_index_error x).
    + apply wp_bind, wp_perform, wp_raise. split; [|discriminate].
      repeat (apply quietly_advance; [|reflexivity]). exact Hw.
    + split; [|discriminate].
      apply quietly_advance; [exact Hw | reflexivity].
Qed.

Lemma sync_dhcp_block_quiet w :
  quietly w ->
  wp (sync_dhcp_block env self)
     (fun r w' => quietly w' /\ r <> OutOfFuel) w.
Proof.
  intros Hw. unfold sync_dhcp_block. apply wp_try_except.
  apply wp_bind, (wp_self_attr _ _ tok _ _ Htok).
  apply wp_bind, (wp_self_attr _ _ tok _ _ Htok).
  apply wp_ask.
  - intros [] _. split; [|discriminate].
    apply quietly_advance; [exact Hw | reflexivity].
  - intros x _. destruct x; cbn [is_fault];
      try (split; [apply quietly_advance; [exact Hw | reflexivity]
                  | discriminate]).
    destruct (negb (contains "unknown remote method" faultString)).
    + apply wp_perform. split; [|discriminate].
      repeat (apply quietly_advance; [|reflexivity]). exact Hw.
    + apply wp_ret. split; [|discriminate].
      apply quietly_advance; [exact Hw | reflexivity].
Qed.

End QuietBlocks.

Section Prelude.

Variable env : Env.
Variable self : CobblerInterface.
Variable tok : string.
Hypothesis Htok : token self = Some tok.
Hypothesis Hurl : truthy (xmlrpc_url self) = true.

(** Every run of [install_host] either stops in its prelude, having made
    the first few of the mutating calls in their order, or enters the
    polling phase with all milestones of the prelude behind it. *)
Lemma install_host_prelude_cases fuel host profile timeout w :
  wp (install_host env fuel self host profile timeout)
     (prelude_post env fuel self host tok (target_profile self profile)
        (effective_timeout timeout) w) w.
Proof.
  unfold install_host. rewrite Hurl.
  fold (target_profile self profile). fold (effective_timeout timeout).
  set (target := target_profile self profile).
  set (T := effective_timeout timeout).
  assert (Hfail : forall w1 x handle pc ms rest,
            reached w ms w1 ->
            profile_call_ok handle tok target pc ->
            ms ++ rest = prelude_mutations handle tok pc ->
            prelude_post env fuel self host tok target T w (Raise x) w1).
  { intros w1 x handle pc ms rest Hr Hpc Hms. left.
    exists x, handle, pc, ms, rest. auto. }
  assert (Hfail0 : forall w1 x,
            reached w [] w1 ->
            prelude_post env fuel self host tok target T w (Raise x) w1).
  { intros w1 x Hr. apply (Hfail w1 x "" [] [] (prelude_mutations "" tok []));
      [exact Hr | left; reflexivity | reflexivity]. }
  apply wp_bind, wp_perform.
  assert (Hw1 : reached w []
                  (advance env (Log INFO "Setting up machine %s install"
                                  [PStr (hostname host)]) w))
    by (apply reached_quiet; [apply reached_refl | reflexivity]).
  revert Hw1.
  generalize (advance env (Log INFO "Setting up machine %s install"
                             [PStr (hostname host)]) w) as w1.
  intros w1 Hw1.
  apply wp_bind.
  eapply wp_conseq;
    [apply (remove_hosts_file_quiet env w1 w1), emitted_refl|].
  intros [[]| x |] w2 [Hq Hfuel]; [| | congruence];
    pose proof (reached_emitted _ _ _ _ Hw1 Hq) as Hw2; clear w1 Hw1 Hq;
    [|apply Hfail0; exact Hw2].
  apply wp_bind.
  eapply wp_conseq;
    [apply (get_system_handle_quiet env self tok Htok w2 host w2),
       emitted_refl|].
  intros [[system handle]| x |] w3 [Hq Hfuel3]; [| | congruence];
    pose proof (reached_emitted _ _ _ _ Hw2 Hq) as Hw3; clear w2 Hw2 Hq Hfuel;
    [|apply Hfail0; exact Hw3].
  apply wp_bind, (wp_self_attr _ _ tok _ _ Htok).
  apply wp_bind, wp_ask;
    [| intros x _; apply Hfail0, reached_quiet; [exact Hw3 | reflexivity]].
  intros info _.
  assert (Hw4 : reached w []
                  (advance env (Rpc (rpc_get_system system)) w3))
    by (apply reached_quiet; [exact Hw3 | reflexivity]).
  revert Hw4. generalize (advance env (Rpc (rpc_get_system system)) w3) as w4.
  clear w3 Hw3 Hfuel3. intros w4 Hw4.
  set (current := dict_get info "profile").
  apply wp_bind.
  apply wp_conseq with
    (post := fun r w' =>
       match r with
       | Ret _ => exists pc, profile_call_ok handle tok target pc /\
                             reached w pc w'
       | Raise x => prelude_post env fuel self host tok target T w (Raise x) w'
       | OutOfFuel => False
       end).
  { destruct (truthy target && negb (py_eqb target current)) eqn:Hcond.
    - apply andb_true_iff in Hcond as [Htruthy _].
      apply wp_bind, (wp_self_attr _ _ tok _ _ Htok).
      apply wp_bind, (wp_self_attr _ _ tok _ _ Htok).
      assert (Hpc : profile_call_ok handle tok target
                      [Rpc (rpc_modify_system handle "profile" target tok)])
        by (right; auto).
      assert (Hw5 : reached w
                [Rpc (rpc_modify_system handle "profile" target tok)]
                (advance env
                   (Rpc (rpc_modify_system handle "profile" target tok)) w4))
        by (apply (reached_milestone env w [] w4); auto).
      apply wp_bind, wp_ask.
      + intros [] _. apply wp_ret. eauto.
      + intros x _. eapply Hfail; [exact Hw5 | exact Hpc | reflexivity].
    - apply wp_ret. exists []. split; [left; reflexivity | exact Hw4]. }
  clear w4 Hw4.
  intros [p0| x |] w5 H5; [| exact H5 | destruct H5].
  destruct H5 as [pc [Hpc Hw5]].
  apply wp_bind, (wp_self_attr _ _ tok _ _ Htok).
  apply wp_bind, (wp_self_attr _ _ tok _ _ Htok).
  set (nb := Rpc (rpc_modify_system handle "netboot_enabled" (PStr "True") tok)).
  set (sv := Rpc (rpc_save_system handle tok)).
  set (pw := Rpc (rpc_power_system handle "reboot" tok)).
  assert (Hw6 : reached w (pc ++ [nb]) (advance env nb w5))
    by (apply reached_milestone; auto).
  apply wp_bind, wp_ask;
    [| intros x _; apply (Hfail _ x handle pc (pc ++ [nb]) [sv; pw]);
       [exact Hw6 | exact Hpc
        | unfold prelude_mutations; rewrite <- List.app_assoc; reflexivity]].
  intros [] _. fold nb.
  revert Hw6. generalize (advance env nb w5) as w6. clear w5 Hw5.
  intros w6 Hw6.
  apply wp_bind.
  eapply wp_conseq;
    [apply (sync_dhcp_block_quiet env self tok Htok w6 w6), emitted_refl|].
  intros [[]| x |] w7 [Hq Hfuel7]; [| | congruence];
    pose proof (reached_emitted _ _ _ _ Hw6 Hq) as Hw7; clear w6 Hw6 Hq;
    [|apply (Hfail _ x handle pc (pc ++ [nb]) [sv; pw]);
      [exact Hw7 | exact Hpc
       | unfold prelude_mutations; rewrite <- List.app_assoc; reflexivity]].
  apply wp_bind, (wp_self_attr _ _ tok _ _ Htok).
  apply wp_bind, (wp_self_attr _ _ tok _ _ Htok).
  assert (Hw8 : reached w ((pc ++ [nb]) ++ [sv]) (advance env sv w7))
    by (apply reached_milestone; auto).
  apply wp_bind, wp_ask;
    [| intros x _; apply (Hfail _ x handle pc ((pc ++ [nb]) ++ [sv]) [pw]);
       [exact Hw8 | exact Hpc
        | unfold prelude_mutations; rewrite <- !List.app_assoc; reflexivity]].
  intros [] _.
  apply wp_bind, (wp_self_attr _ _ tok _ _ Htok).
  apply wp_bind, (wp_self_attr _ _ tok _ _ Htok).
  assert (Hw9 : reached w (((pc ++ [nb]) ++ [sv]) ++ [pw])
                  (advance env pw (advance env sv w7)))
    by (apply reached_milestone; auto).
  apply wp_bind, wp_ask;
    [| intros x _;
       apply (Hfail _ x handle pc (((pc ++ [nb]) ++ [sv]) ++ [pw]) []);
       [exact Hw9 | exact Hpc
        | unfold prelude_mutations;
          rewrite List.app_nil_r, <- !List.app_assoc; reflexivity]].
  intros [] _.
  apply wp_bind, wp_perform.
  apply wp_bind, wp_perform.
  apply wp_bind, wp_perform.
  unfold wp. right. exists system. eexists. exists handle, pc.
  split; [symmetry; apply surjective_pairing|]. split; [exact Hpc|].
  apply reached_quiet; [|reflexivity].
  replace (prelude_milestones host handle tok pc)
    with ((((((pc ++ [nb]) ++ [sv]) ++ [pw])
            ++ [HostRecord "START" PNone "install" (hostname host)])
           ++ [HostRecord "GOOD" PNone "install.start" (hostname host)]))
    by (unfold prelude_milestones, prelude_mutations;
        rewrite <- !List.app_assoc; reflexivity).
  apply reached_milestone; [|reflexivity|reflexivity].
  apply reached_milestone; [|reflexivity|reflexivity].
  exact Hw9.
Qed.

End Prelude.

Section AnyAwait.

Variable env : Env.
Variable self : CobblerInterface.
Variable tok : string.
Hypothesis Htok : token self = Some tok.
Variable host : Host.
Variable system : string.

(** Every run of the polling phase: a clock read, the loop, and then one
    of the five endings. *)
Lemma await_install_cases fuel timeout w r w' :
  await_install env fuel self host system timeout w = (r, w') ->
  exists l loop after ms,
    trace w' = trace w ++ l /\
    events l = TimeTime :: loop ++ after /\
    loop_events system loop /\
    List.filter is_milestone after = ms /\
    count is_sleep after = 0%nat /\
    await_end env host system r ms.
Proof.
  unfold await_install. rewrite bind_time_time. unfold bind at 1.
  destruct (poll_loop env fuel self system (now w) timeout
              {| install_successful := false; time_elapsed := 0 |}
              (advance env TimeTime w)) as [r1 w1] eqn:Hloop.
  destruct (poll_loop_shape env self tok Htok system _ _ _ _ _ _ _ Hloop)
    as [n [new [Htr [Hshape Hexn]]]].
  assert (Hloop_events : loop_events system (events new))
    by (exists n; exact Hshape).
  destruct r1 as [st| x |].
  - destruct (negb (install_successful st)).
    + unfold host_record. rewrite bind_perform. cbn [raise].
      intros [= <- <-].
      exists ([(now w, TimeTime)] ++ new
              ++ [(now w1, end_fail host)]), (events new),
        [end_fail host], [end_fail host].
      split; [|split; [|split; [|split; [|split]]]];
        try reflexivity; try assumption.
      * rewrite trace_advance, Htr, trace_advance.
        repeat (rewrite <- List.app_assoc; cbn [List.app]). reflexivity.
      * rewrite !events_app. reflexivity.
      * constructor.
    + unfold host_wait_for_restart, bind at 1, ask.
      destruct (env_wait_for_restart env (trace w1)) as [[]|x] eqn:Hwait.
      * unfold host_record. rewrite bind_perform, bind_time_time.
        unfold logging_info, perform, ask. intros [= <- <-].
        eexists. exists (events new). eexists.
        exists [WaitForRestart;
                HostRecord "END GOOD" PNone "install" (hostname host)].
        split; [|split; [|split; [|split; [|split]]]].
        -- rewrite !trace_advance, Htr, trace_advance.
           repeat (rewrite <- List.app_assoc; cbn [List.app]). reflexivity.
        -- unfold events. cbn [map snd]. rewrite List.map_app. reflexivity.
        -- exact Hloop_events.
        -- reflexivity.
        -- reflexivity.
        -- constructor.
      * intros [= <- <-].
        exists ([(now w, TimeTime)] ++ new ++ [(now w1, WaitForRestart)]),
          (events new), [WaitForRestart], [WaitForRestart].
        split; [|split; [|split; [|split; [|split]]]];
          try reflexivity; try assumption.
        -- rewrite trace_advance, Htr, trace_advance.
           repeat (rewrite <- List.app_assoc; cbn [List.app]). reflexivity.
        -- rewrite !events_app. reflexivity.
        -- econstructor. exact Hwait.
  - intros [= <- <-]. destruct (Hexn x eq_refl) as [h Hh].
    exists ([(now w, TimeTime)] ++ new), (events new), [], [].
    split; [|split; [|split; [|split; [|split]]]];
      try reflexivity; try assumption.
    + rewrite Htr, trace_advance, <- List.app_assoc. reflexivity.
    + rewrite events_app, List.app_nil_r. reflexivity.
    + econstructor. exact Hh.
  - intros [= <- <-].
    exists ([(now w, TimeTime)] ++ new), (events new), [], [].
    split; [|split; [|split; [|split; [|split]]]];
      try reflexivity; try assumption.
    + rewrite Htr, trace_advance, <- List.app_assoc. reflexivity.
    + rewrite events_app, List.app_nil_r. reflexivity.
    + constructor.
Qed.

(** With a clock that does not run backwards the polling phase ends,
    whatever the server answers, within as many sleeps as poll intervals
    cover the time-out. *)
Lemma await_install_bounded fuel timeout n w r w' :
  latency_at_least env 0 ->
  (n < fuel)%nat ->
  (timeout <= Qnat n * 60)%Q ->
  await_install env fuel self host system timeout w = (r, w') ->
  r <> OutOfFuel /\
  exists l, trace w' = trace w ++ l /\ (count is_sleep (events l) <= n)%nat.
Proof.
  intros Hlat Hfuel Hbound.
  unfold await_install. rewrite bind_time_time. unfold bind at 1.
  destruct (poll_loop env fuel self system (now w) timeout
              {| install_successful := false; time_elapsed := 0 |}
              (advance env TimeTime w)) as [r1 w1] eqn:Hloop.
  pose proof (Hlat (trace w) TimeTime) as L0.
  assert (H1 : (0 <= now (advance env TimeTime w) - now w)%Q)
    by (rewrite now_advance; cbn [duration]; lra).
  assert (H2 : (timeout <= 0 + Qnat n * 60)%Q) by lra.
  destruct (poll_loop_bounded env self tok Htok system (now w) timeout Hlat
              n fuel {| install_successful := false; time_elapsed := 0 |}
              (advance env TimeTime w) r1 w1 Hfuel H1 H2 Hloop)
    as [Hfin [new [Htr Hcount]]].
  - destruct r1 as [st| x |]; [| |congruence].
    + destruct (negb (install_successful st)).
      * unfold host_record. rewrite bind_perform. cbn [raise].
        intros [= <- <-]. split; [discriminate|].
        exists ([(now w, TimeTime)] ++ new ++ [(now w1, end_fail host)]).
        split.
        -- rewrite trace_advance, Htr, trace_advance.
           repeat (rewrite <- List.app_assoc; cbn [List.app]). reflexivity.
        -- rewrite !events_app, !count_app. cbn. lia.
      * unfold host_wait_for_restart, bind at 1, ask.
        destruct (env_wait_for_restart env (trace w1)) as [[]|x].
        -- unfold host_record. rewrite bind_perform, bind_time_time.
           unfold logging_info, perform, ask. intros [= <- <-].
           split; [discriminate|]. eexists. split.
           ++ rewrite !trace_advance, Htr, trace_advance.
              repeat (rewrite <- List.app_assoc; cbn [List.app]). reflexivity.
           ++ unfold events in *. cbn [map snd].
              rewrite List.map_app, count_cons, count_app. cbn. lia.
        -- intros [= <- <-]. split; [discriminate|].
           exists ([(now w, TimeTime)] ++ new ++ [(now w1, WaitForRestart)]).
           split.
           ++ rewrite trace_advance, Htr, trace_advance.
              repeat (rewrite <- List.app_assoc; cbn [List.app]). reflexivity.
           ++ rewrite !events_app, !count_app. cbn. lia.
    + intros [= <- <-]. split; [discriminate|].
      exists ([(now w, TimeTime)] ++ new). split.
      * rewrite Htr, trace_advance, <- List.app_assoc. reflexivity.
      * rewrite events_app, count_app. cbn. lia.
Qed.

End AnyAwait.

(** ** The anatomy of an install *)

Lemma install_host_anatomy env self tok fuel host profile timeout w r w' :
  truthy (xmlrpc_url self) = true ->
  token self = Some tok ->
  install_host env fuel self host profile timeout w = (r, w') ->
  exists new,
    trace w' = trace w ++ new /\
    install_anatomy env host tok (target_profile self profile) r (events new).
Proof.
  intros Hurl Htok Hrun.
  pose proof (install_host_prelude_cases env self tok Htok Hurl fuel host
                profile timeout w) as H.
  unfold wp in H. rewrite Hrun in H. cbn [fst snd] in H.
  destruct H as [[e [handle [pc [ms [rest [-> [Hpc [[l [Hl [Hms Hsl]]] Hpre]]]]]]]]
                |[system [w1 [handle [pc [Hawait [Hpc [l [Hl [Hms Hsl]]]]]]]]]].
  - exists l. split; [exact Hl|]. left.
    exists e, handle, pc, rest. rewrite Hms. auto.
  - symmetry in Hawait.
    destruct (await_install_cases env self tok Htok host system _ _ _ _ _
                Hawait)
      as [l2 [loop [after [ms [Hl2 [Hev2 [Hloop [Hafter [Hsl2 Hend]]]]]]]]].
    exists (l ++ l2). split; [rewrite Hl2, Hl; symmetry; apply List.app_assoc|].
    right. exists system, handle, pc, (events l), loop, after, ms.
    rewrite events_app, Hev2. auto 10.
Qed.

Lemma filter_milestone_poll_cycles n system :
  List.filter is_milestone (poll_cycles n system) = [].
Proof. induction n as [|n IH]; [reflexivity | exact IH]. Qed.

Lemma filter_milestone_loop system loop :
  loop_events system loop -> List.filter is_milestone loop = [].
Proof.
  intros [n [-> | ->]].
  - apply filter_milestone_poll_cycles.
  - rewrite List.filter_app, filter_milestone_poll_cycles. reflexivity.
Qed.

Lemma count_loop_events system loop :
  loop_events system loop ->
  count is_sleep loop = count is_get_system loop.
Proof.
  intros [n [-> | ->]].
  - rewrite count_poll_cycles_sleep, count_poll_cycles_get_system.
    reflexivity.
  - rewrite !count_app, count_poll_cycles_sleep,
      count_poll_cycles_get_system. reflexivity.
Qed.

(** X8. Whatever the server answers, [install_host] sleeps only in its
    polling loop: the events of a run are a part without sleeps, then the
    loop - complete cycles of a 60 s sleep, a [get_system] call and a clock
    read, possibly followed by one more sleep and [get_system] call - and
    another part without sleeps. So every sleep lasts one poll interval
    and is directly followed by a status query. *)
Theorem sleeps_belong_to_polls env self tok fuel host profile timeout w :
  truthy (xmlrpc_url self) = true ->
  token self = Some tok ->
  exists new pre loop after system,
    trace (snd (install_host env fuel self host profile timeout w))
      = trace w ++ new /\
    events new = pre ++ loop ++ after /\
    count is_sleep pre = 0%nat /\
    count is_sleep after = 0%nat /\
    loop_events system loop /\
    (count is_sleep (events new) <= count is_get_system (events new))%nat.
Proof.
  intros Hurl Htok.
  destruct (install_host_anatomy env self tok fuel host profile timeout w
              _ _ Hurl Htok (surjective_pairing _)) as [new [Hnew Hanat]].
  exists new.
  destruct Hanat as [[e [handle [pc [rest [_ [_ [_ Hsl]]]]]]]
                    |[system [handle [pc [pre [loop [after [ms
                       [Hev [Hpre [_ [_ [Hloop [_ [Hafter _]]]]]]]]]]]]]]].
  - exists (events new), [], [], "".
    split; [exact Hnew|]. split; [symmetry; apply List.app_nil_r|].
    split; [exact Hsl|]. split; [reflexivity|].
    split; [exists 0%nat; left; reflexivity|]. rewrite Hsl. lia.
  - exists (pre ++ [TimeTime]), loop, after, system.
    split; [exact Hnew|].
    split; [rewrite Hev, <- List.app_assoc; reflexivity|].
    split; [rewrite count_app, Hpre; reflexivity|].
    split; [exact Hafter|]. split; [exact Hloop|].
    rewrite Hev, !count_app, !count_cons, !count_app, Hpre, Hafter.
    rewrite (count_loop_events _ _ Hloop). cbn. lia.
Qed.

Lemma sleeps_belong_to_polls_witness :
  exists new pre loop after system,
    trace (snd (install_host lab 5 (session PNone) h1 (PStr "new")
                  (Some 120%Q) world0))
      = trace world0 ++ new /\
    events new = pre ++ loop ++ after /\
    count is_sleep pre = 0%nat /\
    count is_sleep after = 0%nat /\
    loop_events system loop.
Proof.
  destruct (sleeps_belong_to_polls lab (session PNone) "secret-token" 5 h1
              (PStr "new") (Some 120%Q) world0 eq_refl eq_refl)
    as [new [pre [loop [after [system [H1 [H2 [H3 [H4 [H5 _]]]]]]]]]].
  exists new, pre, loop, after, system. auto.
Defined.

(** X9. Whatever the server answers, with a clock that does not run
    backwards [install_host] ends (it returns or raises) as soon as its
    fuel exceeds the number [n] of poll intervals that cover the time-out,
    and it has slept at most [n] times. *)
Theorem install_host_terminates env self tok fuel host profile timeout n w :
  truthy (xmlrpc_url self) = true ->
  token self = Some tok ->
  latency_at_least env 0 ->
  (effective_timeout timeout <= Qnat n * step_time)%Q ->
  (n < fuel)%nat ->
  fst (install_host env fuel self host profile timeout w) <> OutOfFuel /\
  exists new,
    trace (snd (install_host env fuel self host profile timeout w))
      = trace w ++ new /\
    (count is_sleep (events new) <= n)%nat.
Proof.
  intros Hurl Htok Hlat Hbound Hfuel.
  pose proof (install_host_prelude_cases env self tok Htok Hurl fuel host
                profile timeout w) as H.
  unfold wp in H.
  destruct (install_host env fuel self host profile timeout w) as [r w'].
  cbn [fst snd] in *.
  destruct H as [[e [handle [pc [ms [rest [-> [_ [[l [Hl [_ Hsl]]] _]]]]]]]]
                |[system [w1 [handle [pc [Hawait [_ [l [Hl [_ Hsl]]]]]]]]]].
  - split; [discriminate|]. exists l. split; [exact Hl|]. rewrite Hsl. lia.
  - symmetry in Hawait. unfold step_time in Hbound.
    destruct (await_install_bounded env self tok Htok host system fuel
                (effective_timeout timeout) n w1 r w' Hlat Hfuel Hbound
                Hawait) as [Hfin [l2 [Hl2 Hcount]]].
    split; [exact Hfin|]. exists (l ++ l2).
    split; [rewrite Hl2, Hl; symmetry; apply List.app_assoc|].
    rewrite events_app, count_app, Hsl. exact Hcount.
Qed.

Lemma install_host_terminates_witness :
  fst (install_host
         (scripted ["h1"] "hd" (never_clears "old") (Ok tt) 0)
         3 (session PNone) h1 (PStr "new") (Some 120%Q) world0)
    <> OutOfFuel /\
  exists new,
    trace (snd (install_host
                  (scripted ["h1"] "hd" (never_clears "old") (Ok tt) 0)
                  3 (session PNone) h1 (PStr "new") (Some 120%Q) world0))
      = trace world0 ++ new /\
    (count is_sleep (events new) <= 2)%nat.
Proof.
  apply (install_host_terminates
           (scripted ["h1"] "hd" (never_clears "old") (Ok tt) 0)
           (session PNone) "secret-token" 3 h1 (PStr "new") (Some 120%Q) 2
           world0).
  - reflexivity.
  - reflexivity.
  - intros h e. cbn. lra.
  - vm_compute. discriminate.
  - lia.
Defined.

(** X10. Whatever the server answers, the calls that change the remote
    system, the host records and the wait for the restart happen in one
    fixed order, each at most once: the profile (only when a non-empty
    target asks for it), "netboot_enabled", [save_system],
    [power_system(handle, "reboot")], the records "START" and "GOOD", and
    then either the record "END FAIL", or [wait_for_restart] and the
    record "END GOOD". A run makes a prefix of this list, and the whole
    list when it returns normally. *)
Theorem milestones_in_order env self tok fuel host profile timeout w r w' :
  truthy (xmlrpc_url self) = true ->
  token self = Some tok ->
  install_host env fuel self host profile timeout w = (r, w') ->
  exists new handle pc ending rest,
    trace w' = trace w ++ new /\
    profile_call_ok handle tok (target_profile self profile) pc /\
    ending_ok host ending /\
    List.filter is_milestone (events new) ++ rest
      = prelude_milestones host handle tok pc ++ ending /\
    (r = Ret tt -> rest = []).
Proof.
  intros Hurl Htok Hrun.
  destruct (install_host_anatomy env self tok fuel host profile timeout w
              _ _ Hurl Htok Hrun) as [new [Hnew Hanat]].
  exists new.
  destruct Hanat as [[e [handle [pc [rest [-> [Hpc [Hms _]]]]]]]
                    |[system [handle [pc [pre [loop [after [ms
                       [Hev [_ [Hpre [Hpc [Hloop [Hafter [_ Hend]]]]]]]]]]]]]]].
  - exists handle, pc, [end_fail host],
      (rest ++ [HostRecord "START" PNone "install" (hostname host);
                HostRecord "GOOD" PNone "install.start" (hostname host)]
            ++ [end_fail host]).
    split; [exact Hnew|]. split; [exact Hpc|]. split; [left; reflexivity|].
    split; [|discriminate].
    unfold prelude_milestones. rewrite <- Hms, <- !List.app_assoc.
    reflexivity.
  - assert (Hfilter : List.filter is_milestone (events new)
                      = prelude_milestones host handle tok pc ++ ms).
    { rewrite Hev, List.filter_app. cbn [List.filter is_milestone is_mutating
        is_host_record is_wait_for_restart orb].
      rewrite List.filter_app, Hpre, (filter_milestone_loop _ _ Hloop), Hafter.
      reflexivity. }
    exists handle, pc.
    destruct Hend as [| |h e Hh|h e Hh|].
    + eexists. exists []. split; [exact Hnew|]. split; [exact Hpc|].
      split; [right; reflexivity|].
      split; [rewrite Hfilter, List.app_nil_r; reflexivity | reflexivity].
    + eexists. exists []. split; [exact Hnew|]. split; [exact Hpc|].
      split; [left; reflexivity|].
      split; [rewrite Hfilter, List.app_nil_r; reflexivity | reflexivity].
    + exists [WaitForRestart;
              HostRecord "END GOOD" PNone "install" (hostname host)],
        [HostRecord "END GOOD" PNone "install" (hostname host)].
      split; [exact Hnew|]. split; [exact Hpc|]. split; [right; reflexivity|].
      split; [rewrite Hfilter, <- List.app_assoc; reflexivity | discriminate].
    + exists [end_fail host], [end_fail host].
      split; [exact Hnew|]. split; [exact Hpc|]. split; [left; reflexivity|].
      split; [rewrite Hfilter, List.app_nil_r; reflexivity | discriminate].
    + exists [end_fail host], [end_fail host].
      split; [exact Hnew|]. split; [exact Hpc|]. split; [left; reflexivity|].
      split; [rewrite Hfilter, List.app_nil_r; reflexivity | discriminate].
Qed.

Lemma milestones_in_order_witness :
  exists new handle pc ending rest,
    trace (snd (install_host
                  (with_power_system lab (Err (Fault 1 "no power management")))
                  5 (session PNone) h1 (PStr "new") None world0))
      = trace world0 ++ new /\
    profile_call_ok handle "secret-token"
      (target_profile (session PNone) (PStr "new")) pc /\
    ending_ok h1 ending /\
    List.filter is_milestone (events new) ++ rest
      = prelude_milestones h1 handle "secret-token" pc ++ ending.
Proof.
  destruct (milestones_in_order
              (with_power_system lab (Err (Fault 1 "no power management")))
              (session PNone) "secret-token" 5 h1 (PStr "new") None world0
              _ _ eq_refl eq_refl (surjective_pairing _))
    as [new [handle [pc [ending [rest [H1 [H2 [H3 [H4 _]]]]]]]]].
  exists new, handle, pc, ending, rest. auto.
Defined.

Lemma count_filter p q l :
  (forall e, p e = true -> q e = true) ->
  count p (List.filter q l) = count p l.
Proof.
  intros Hpq. induction l as [|e l IH]; [reflexivity|].
  cbn [List.filter]. destruct (q e) eqn:Hq.
  - rewrite !count_cons, IH. reflexivity.
  - rewrite count_cons, IH.
    destruct (p e) eqn:Hp; [rewrite (Hpq e Hp) in Hq; discriminate|].
    reflexivity.
Qed.

Lemma record_is_milestone status e :
  is_record status e = true -> is_milestone e = true.
Proof. destruct e; try discriminate. reflexivity. Qed.

Lemma count_record_profile_call status handle tok target pc :
  profile_call_ok handle tok target pc -> count (is_record status) pc = 0%nat.
Proof. intros [-> | [-> _]]; reflexivity. Qed.

(** X11. Whatever the server answers, the final host record tells how
    [install_host] ended: it has recorded "END GOOD" (once) exactly when
    it returns normally; if it has recorded "END FAIL", it raises the
    "install timed out" error; and it never records both. *)
Theorem final_record_matches_outcome env self tok fuel host profile timeout
    w r w' :
  truthy (xmlrpc_url self) = true ->
  token self = Some tok ->
  install_host env fuel self host profile timeout w = (r, w') ->
  exists new,
    trace w' = trace w ++ new /\
    (r = Ret tt <-> count (is_record "END GOOD") (events new) = 1%nat) /\
    (count (is_record "END FAIL") (events new) = 1%nat ->
     r = Raise (HostInstallTimeoutError (timed_out_message host))) /\
    (count (is_record "END GOOD") (events new)
     + count (is_record "END FAIL") (events new) <= 1)%nat.
Proof.
  intros Hurl Htok Hrun.
  destruct (install_host_anatomy env self tok fuel host profile timeout w
              _ _ Hurl Htok Hrun) as [new [Hnew Hanat]].
  exists new. split; [exact Hnew|].
  destruct Hanat as [[e [handle [pc [rest [-> [Hpc [Hms _]]]]]]]
                    |[system [handle [pc [pre [loop [after [ms
                       [Hev [_ [Hpre [Hpc [Hloop [Hafter [_ Hend]]]]]]]]]]]]]]].
  - assert (Hzero : forall status,
              count (is_record status) (events new) = 0%nat).
    { intros status.
      rewrite <- (count_filter _ is_milestone)
        by apply record_is_milestone.
      pose proof (f_equal (count (is_record status)) Hms) as Hc.
      unfold prelude_mutations in Hc. rewrite !count_app in Hc.
      rewrite (count_record_profile_call _ _ _ _ _ Hpc) in Hc.
      cbn in Hc. lia. }
    rewrite !Hzero. split; [split; discriminate|].
    split; [discriminate | lia].
  - assert (Hcount : forall status,
              String.eqb "START" status = false ->
              String.eqb "GOOD" status = false ->
              count (is_record status) (events new)
              = count (is_record status) ms).
    { intros status H1 H2.
      rewrite <- (count_filter _ is_milestone)
        by apply record_is_milestone.
      rewrite Hev, List.filter_app. cbn [List.filter is_milestone is_mutating
        is_host_record is_wait_for_restart orb].
      rewrite List.filter_app, Hpre, (filter_milestone_loop _ _ Hloop), Hafter.
      unfold prelude_milestones, prelude_mutations. rewrite !count_app.
      rewrite (count_record_profile_call _ _ _ _ _ Hpc).
      rewrite !count_cons. cbn [is_record]. rewrite H1, H2. reflexivity. }
    rewrite !Hcount by reflexivity.
    destruct Hend; cbn.
    + split; [split; reflexivity|]. split; [discriminate | lia].
    + split; [split; discriminate|]. split; [reflexivity | lia].
    + split; [split; discriminate|]. split; [discriminate | lia].
    + split; [split; discriminate|]. split; [discriminate | lia].
    + split; [split; discriminate|]. split; [discriminate | lia].
Qed.

Lemma final_record_matches_outcome_witness :
  exists new,
    trace (snd (install_host
                  (with_wait_for_restart lab
                     (Err (OtherError "AutoservRebootError" "host down")))
                  5 (session PNone) h1 (PStr "new") None world0))
      = trace world0 ++ new /\
    (fst (install_host
            (with_wait_for_restart lab
               (Err (OtherError "AutoservRebootError" "host down")))
            5 (session PNone) h1 (PStr "new") None world0) = Ret tt
     <-> count (is_record "END GOOD") (events new) = 1%nat).
Proof.
  destruct (final_record_matches_outcome
              (with_wait_for_restart lab
                 (Err (OtherError "AutoservRebootError" "host down")))
              (session PNone) "secret-token" 5 h1 (PStr "new") None world0
              _ _ eq_refl eq_refl (surjective_pairing _))
    as [new [H1 [H2 _]]].
  exists new. split; assumption.
Defined.

(** ** Installing a host that the server does not know *)

Lemma get_system_handle_unregistered env self host tok w :
  token self = Some tok ->
  env_find_system env (trace w) {[ "name" := PStr (hostname host) ]} = Ok [] ->
  get_system_handle env self host w
  = (Raise (ValueError (not_registered_message host)),
     advance env
       (Log ERROR "Error finding %s: %s"
          [PStr (hostname host); PStr "list index out of range"])
       (advance env
          (Rpc (rpc_find_system {[ "name" := PStr (hostname host) ]})) w)).
Proof.
  intros Htok Hfind.
  unfold get_system_handle, bind at 1, try_except.
  rewrite (self_attr_some _ _ _ Htok), bind_ret.
  unfold server_find_system.
  rewrite (bind_ask_ok env _ _ _ _ _ Hfind).
  cbn [raise is_index_error]. unfold logging_error.
  rewrite bind_perform. reflexivity.
Qed.

(** X12. When [find_system] knows no system of the host's name (and the
    known-hosts file, if any, can be removed), [install_host] raises the
    "not registered" [ValueError] and has left the server and the host
    alone: no mutating call, no host record, no sleep. *)
Theorem install_host_unregistered env fuel self host profile timeout tok w :
  truthy (xmlrpc_url self) = true ->
  token self = Some tok ->
  (forall h p, env_remove env h p = Ok tt) ->
  (forall h, env_find_system env h {[ "name" := PStr (hostname host) ]}
             = Ok []) ->
  exists w' new,
    install_host env fuel self host profile timeout w
      = (Raise (ValueError (not_registered_message host)), w') /\
    trace w' = trace w ++ new /\
    count is_mutating (events new) = 0%nat /\
    count is_host_record (events new) = 0%nat /\
    count is_sleep (events new) = 0%nat.
Proof.
  intros Hurl Htok Hremove Hfind.
  unfold install_host. rewrite Hurl.
  unfold logging_info at 1. rewrite bind_perform.
  unfold remove_hosts_file. rewrite bind_assoc.
  erewrite bind_ask_ok by reflexivity.
  match goal with |- context [env_isfile env ?h ?p] =>
    destruct (env_isfile env h p) end.
  - unfold logging_debug. rewrite bind_assoc, bind_perform.
    erewrite bind_ask_ok by apply Hremove.
    unfold bind at 1.
    rewrite (get_system_handle_unregistered _ _ _ _ _ Htok (Hfind _)).
    eexists. eexists. split; [reflexivity|].
    split; [rewrite !trace_advance, <- !List.app_assoc; reflexivity|].
    repeat split.
  - rewrite bind_ret. unfold bind at 1.
    rewrite (get_system_handle_unregistered _ _ _ _ _ Htok (Hfind _)).
    eexists. eexists. split; [reflexivity|].
    split; [rewrite !trace_advance, <- !List.app_assoc; reflexivity|].
    repeat split.
Qed.

Lemma install_host_unregistered_witness :
  exists w' new,
    install_host (scripted [] "hd" (clears_at 1 "old") (Ok tt) 0)
      5 (session PNone) h1 (PStr "new") None world0
      = (Raise (ValueError (not_registered_message h1)), w') /\
    trace w' = trace world0 ++ new /\
    count is_mutating (events new) = 0%nat.
Proof.
  destruct (install_host_unregistered
              (scripted [] "hd" (clears_at 1 "old") (Ok tt) 0)
              5 (session PNone) h1 (PStr "new") None "secret-token" world0
              eq_refl eq_refl (fun _ _ => eq_refl) (fun _ => eq_refl))
    as [w' [new [H1 [H2 [H3 _]]]]].
  exists w', new. auto.
Defined.

(** ** A failure of the DHCP synchronisation that is not a fault *)




